(** * The OCR worker's candidate ranker: [backend/ocr-worker/handler.py]

    A shallow embedding of [_bbox_area], [_heuristic_candidates] (with its
    inner [_norm] and [_dedup]) and [handler], and the properties the
    specification states about them.

    Conventions of the embedding.
    - A Python [float] is an IEEE 754 binary64 number: Rocq's primitive
      [float], whose operations are specified by [FloatAxioms].
    - A Python [str] is a [string]; each [ascii] stands for the code point
      of the same number, so the texts covered are those of U+0000..U+00FF.
    - An entry of the recognition result has the engine's nested shape
      [[bbox, (text, conf)]]; [bbox] is a list of points, a point a list of
      coordinates.  Inside the [try] block, what can still raise is
      [p[0]] or [p[1]] on a point that is too short and [max]/[min] on an
      empty sequence; a raised exception is [None].
    - [handler] runs over the state of the module, the global [_OCR],
      and over collaborators that return or raise: the two transfers,
      the constructor of the engine and the recognition call.  What they
      raise is of class [Exception], which [except Exception] catches,
      or of another class of [BaseException] ([SystemExit],
      [KeyboardInterrupt], [GeneratorExit]), which it does not. *)

From Stdlib Require Import List String Ascii Bool Arith ZArith Lia.
From Stdlib Require Import Permutation Sorted ListSet.
From Stdlib Require Import Floats.
Import ListNotations.

Set Implicit Arguments.
Set Warnings "-inexact-float".

Local Open Scope string_scope.
Local Open Scope list_scope.
Local Open Scope nat_scope.

(** ** Python strings *)

Module PyStr.

(** [c.isspace()] for a code point below 256. *)
Definition isspace (c : ascii) : bool :=
  let n := nat_of_ascii c in
  ((9 <=? n) && (n <=? 13)) || ((28 <=? n) && (n <=? 32))
  || (n =? 133) || (n =? 160).

(** [c.lower()] for a code point below 256: A-Z and the capital letters
    of U+00C0..U+00DE (the multiplication sign U+00D7 apart). *)
Definition lower_char (c : ascii) : ascii :=
  let n := nat_of_ascii c in
  if ((65 <=? n) && (n <=? 90))
     || ((192 <=? n) && (n <=? 222) && negb (n =? 215))
  then ascii_of_nat (n + 32) else c.

Fixpoint map (f : ascii -> ascii) (s : string) : string :=
  match s with
  | EmptyString => EmptyString
  | String c s' => String (f c) (map f s')
  end.

Fixpoint rev_append (s acc : string) : string :=
  match s with
  | EmptyString => acc
  | String c s' => rev_append s' (String c acc)
  end.

Definition rev (s : string) : string := rev_append s EmptyString.

(** [s.lower()] *)
Definition lower (s : string) : string := map lower_char s.

Fixpoint lstrip (s : string) : string :=
  match s with
  | EmptyString => EmptyString
  | String c s' => if isspace c then lstrip s' else s
  end.

(** [s.strip()] *)
Definition strip (s : string) : string := rev (lstrip (rev (lstrip s))).

(** [s.replace(a, b)] for one-character [a] and [b]. *)
Definition replace (a b : ascii) (s : string) : string :=
  map (fun c => if Ascii.eqb c a then b else c) s.

(** [s.split()]: the maximal runs of non-whitespace characters; [word]
    is the run being read, last character first. *)
Fixpoint split_from (word : string) (s : string) : list string :=
  match s with
  | EmptyString =>
      match word with EmptyString => [] | _ => [rev word] end
  | String c s' =>
      if isspace c
      then match word with
           | EmptyString => split_from EmptyString s'
           | _ => rev word :: split_from EmptyString s'
           end
      else split_from (String c word) s'
  end.

Definition split (s : string) : list string := split_from EmptyString s.

(** [sep.join(ws)] *)
Definition join (sep : string) (ws : list string) : string :=
  String.concat sep ws.

(** [pat in s] *)
Definition contains (pat s : string) : bool :=
  match String.index 0 pat s with Some _ => true | None => false end.

(** [s[:n]] *)
Definition slice_to (n : nat) (s : string) : string :=
  String.substring 0 n s.

(** [len(s)] *)
Definition len (s : string) : nat := String.length s.

(** Truth value of a string: [bool(s)]. *)
Definition truthy (s : string) : bool :=
  match s with EmptyString => false | _ => true end.

End PyStr.

(** ** Python floats *)

Module PyFloat.

Local Open Scope float_scope.

(** [a > b] *)
Definition gt (a b : float) : bool := b <? a.

(** [max(a, b)]: the first argument unless the second is greater. *)
Definition max2 (a b : float) : float := if gt b a then b else a.

(** [max(xs)] of a non-empty sequence: the running maximum is replaced
    by an item that is greater; [ValueError] on the empty sequence. *)
Definition max_seq (xs : list float) : option float :=
  match xs with
  | [] => None
  | x :: rest => Some (fold_left (fun m y => if gt y m then y else m) rest x)
  end.

(** [min(xs)]: as [max_seq], with an item that is smaller. *)
Definition min_seq (xs : list float) : option float :=
  match xs with
  | [] => None
  | x :: rest => Some (fold_left (fun m y => if y <? m then y else m) rest x)
  end.

(** Nearest integer to [n / d] for [0 <= n] and [0 < d], ties to even. *)
Definition div_half_even (n d : Z) : Z :=
  let q := (n / d)%Z in
  match (2 * (n mod d) ?= d)%Z with
  | Lt => q
  | Gt => (q + 1)%Z
  | Eq => if Z.even q then q else (q + 1)%Z
  end.

(** The integer nearest to [m * 2^e * 1000], ties to even: the digits
    of the decimal with three places nearest to [m * 2^e]. *)
Definition thousandths (m : positive) (e : Z) : Z :=
  if (0 <=? e)%Z then (Zpos m * 2 ^ e * 1000)%Z
  else div_half_even (Zpos m * 1000) (2 ^ (- e)).

(** [round(x, 3)]: the exact value of [x] is rounded to the nearest
    decimal with three places (ties to even), and the double nearest to
    that decimal is returned; zeros, infinities and NaN round to
    themselves, and the sign of [x] is kept. *)
Definition round3 (x : float) : float :=
  match Prim2SF x with
  | S754_finite s m e =>
      match thousandths m e with
      | Zpos n =>
          SF2Prim (SFdiv prec emax (S754_finite s n 0)
                                   (S754_finite false 1000 0))
      | _ => if s then - 0 else 0
      end
  | _ => x
  end.

End PyFloat.

(** ** Data model *)

(** A point of a bounding box: the list of its coordinates, [[x, y]]. *)
Definition point := list float.

(** [item[1][0]]: a [str], or an object of another type. *)
Inductive pytext : Type :=
| TStr (s : string)
| TOther.

(** One entry of the recognition result: [[bbox, (text, conf)]]. *)
Record ocr_item : Type := Item {
  item_bbox : list point;
  item_text : pytext;
  item_conf : float
}.

(** An element of [lines]: the tuple [(text, conf, area)]. *)
Definition line : Type := string * float * float.

Definition line_text (t : line) : string := fst (fst t).
Definition line_conf (t : line) : float := snd (fst t).
Definition line_area (t : line) : float := snd t.

(** A candidate: the dict [{"value": ..., "confidence": ...}]. *)
Record candidate : Type := Candidate {
  value : string;
  confidence : float
}.

(** Exceptions inside the [try] block of the loop: [None] is a raised
    exception. *)
Notation "x <- e ;; k" :=
  (match e with Some x => k | None => None end)
  (at level 61, e at next level, right associativity).

(** ** [_bbox_area] *)

(** [[p[i] for p in bbox]]; [IndexError] when a point has no [i]-th
    coordinate. *)
Fixpoint coords (i : nat) (bbox : list point) : option (list float) :=
  match bbox with
  | [] => Some []
  | p :: ps =>
      c <- nth_error p i ;;
      cs <- coords i ps ;;
      Some (c :: cs)
  end.

Definition _bbox_area (bbox : list point) : option float :=
  xs <- coords 0 bbox ;;
  ys <- coords 1 bbox ;;
  max_xs <- PyFloat.max_seq xs ;;
  min_xs <- PyFloat.min_seq xs ;;
  max_ys <- PyFloat.max_seq ys ;;
  min_ys <- PyFloat.min_seq ys ;;
  Some (PyFloat.max2 0 (max_xs - min_xs) * PyFloat.max2 0 (max_ys - min_ys))%float.

(** ** [_heuristic_candidates] *)

(** The body of the [try] block for one entry: the new value of [lines],
    or [None] when an exception was raised. *)
Definition try_item (lines : list line) (item : ocr_item) : option (list line) :=
  area <- _bbox_area (item_bbox item) ;;
  match item_text item with
  | TStr text =>
      if PyStr.truthy text
      then Some (lines ++ [(PyStr.strip text, item_conf item, area)])
      else Some lines
  | TOther => Some lines
  end.

(** The first loop: [except Exception: continue] leaves [lines] as it
    was. *)
Definition collect_lines (ocr_result : list ocr_item) : list line :=
  fold_left
    (fun lines item =>
       match try_item lines item with
       | Some lines' => lines'
       | None => lines
       end)
    ocr_result [].

(** The sort key [t[1] * (1.0 + t[2] / 10000.0)]. *)
Definition salience (t : line) : float :=
  (line_conf t * (1 + line_area t / 10000))%float.

(** [sorted(l, key=key, reverse=True)], by its contract: the stable sort
    into descending order of [key], where an element goes behind those
    with a greater or equal key that come before it in [l].  The contract
    binds CPython when [<] orders the keys totally, that is when no key
    is NaN, and there every stable sort returns this list.  With a NaN
    key, [<] is no order, what the library returns depends on its runs
    and merges, and this function stands for it only on the lists where
    the two are seen to agree. *)
Section SortedReverse.
Variable A : Type.
Variable key : A -> float.

Fixpoint insert_desc (x : A) (l : list A) : list A :=
  match l with
  | [] => [x]
  | y :: l' =>
      if (key x <? key y)%float then y :: insert_desc x l' else x :: l
  end.

Definition sorted_reverse (l : list A) : list A :=
  fold_right insert_desc [] l.
End SortedReverse.

Definition ranked (lines : list line) : list line :=
  sorted_reverse salience lines.

(** The inner function [_norm]. *)
Definition _norm (s : string) : string :=
  PyStr.slice_to 200
    (PyStr.join " " (PyStr.split (PyStr.replace "010"%char " "%char s))).

(** [any(x in t for x in [',', ' and ', ' & '])] *)
Definition has_author_mark (t : string) : bool :=
  existsb (fun x => PyStr.contains x t) [","; " and "; " & "].

(** The test of the [if] that routes a line to [author_cands]. *)
Definition author_like (t : string) : bool :=
  has_author_mark t && (PyStr.len t <? 80).

(** The test of [continue] in the second loop: [not t or len(t) < 3]. *)
Definition too_short (t : string) : bool :=
  negb (PyStr.truthy t) || (PyStr.len t <? 3).

(** One iteration of the second loop on [(title_cands, author_cands)]. *)
Definition classify_step (st : list candidate * list candidate) (ln : line)
  : list candidate * list candidate :=
  let '(title_cands, author_cands) := st in
  let t := _norm (line_text ln) in
  if too_short t then st
  else
    let c := {| value := t; confidence := PyFloat.round3 (line_conf ln) |} in
    if author_like t
    then (title_cands, author_cands ++ [c])
    else (title_cands ++ [c], author_cands).

(** The second loop, over [ranked[:20]]. *)
Definition classify (rk : list line) : list candidate * list candidate :=
  fold_left classify_step (firstn 20 rk) ([], []).

(** One iteration of the loop of [_dedup] on [(seen, out)]. *)
Definition dedup_step (st : set string * list candidate) (it : candidate)
  : set string * list candidate :=
  let '(seen, out) := st in
  let v := PyStr.lower (value it) in
  if PyStr.truthy v && negb (set_mem string_dec v seen)
  then (set_add string_dec v seen, out ++ [it])
  else st.

(** The inner function [_dedup]. *)
Definition _dedup (items : list candidate) : list candidate :=
  firstn 5 (snd (fold_left dedup_step items (empty_set string, []))).

(** [ocr_result or []]: [None] and the empty list give the empty list. *)
Definition or_empty (ocr_result : option (list ocr_item)) : list ocr_item :=
  match ocr_result with
  | Some l => l
  | None => []
  end.

Definition _heuristic_candidates (ocr_result : option (list ocr_item))
  : list candidate * list candidate :=
  let lines := collect_lines (or_empty ocr_result) in
  let '(title_cands, author_cands) := classify (ranked lines) in
  (_dedup title_cands, _dedup author_cands).

(** ** [handler] and its collaborators *)

(** The outcome of a call: a value; a raised exception of class
    [Exception], with its message [str(e)]; or a raised exception that
    is not an [Exception] ([SystemExit], [KeyboardInterrupt],
    [GeneratorExit]), with the name of its class. *)
Inductive exc (A : Type) : Type :=
| Return (a : A)
| Raise (msg : string)
| Escape (class : string).

Arguments Return {A} a.
Arguments Raise {A} msg.
Arguments Escape {A} class.

(** A computation of the entrypoint over the module's state [G]: from
    the state, an outcome and the new state.  A raised exception skips
    the rest of the [try] block and keeps the state it was raised in. *)
Definition io (G A : Type) : Type := G -> exc A * G.

Definition io_bind {G A B : Type} (m : io G A) (k : A -> io G B) : io G B :=
  fun g =>
    match m g with
    | (Return a, g') => k a g'
    | (Raise msg, g') => (Raise msg, g')
    | (Escape class, g') => (Escape class, g')
    end.

Definition io_return {G A : Type} (a : A) : io G A := fun g => (Return a, g).

Definition io_raise {G A : Type} (msg : string) : io G A :=
  fun g => (Raise msg, g).

(** A call that does not touch the state. *)
Definition call {G A : Type} (m : exc A) : io G A := fun g => (m, g).

Notation "x <~ m ;; k" := (io_bind m (fun x => k))
  (at level 61, m at next level, right associativity).

(** The job payload: what [event.get] returns for each of the three
    keys, [None] for a key that is absent or null. *)
Record event : Type := Event {
  s3Bucket : option string;
  s3Key : option string;
  imageUrl : option string
}.

(** What [ocr.ocr(path, cls=True)] returns: a list with, per image, the
    entries found ([None] when there are none), or another object. *)
Inductive ocr_output : Type :=
| OcrList (pages : list (option (list ocr_item)))
| OcrOther.

(** The dict that [handler] returns; [error] is [None] when the key is
    absent. *)
Record result : Type := Result {
  error : option string;
  title_candidates : list candidate;
  author_candidates : list candidate;
  language_guess : string
}.

(** Truth value of [event.get(...)]: [None] and the empty string are
    false. *)
Definition present (v : option string) : bool :=
  match v with
  | Some s => PyStr.truthy s
  | None => false
  end.

Definition missing_location : string :=
  "Missing image location: provide s3Bucket/s3Key or imageUrl".

Section Handler.
(** The recognition engine and the two transfers are outside the
    repository.  [PaddleOCR] is the imported constructor, [None] when the
    import failed; building a handle, a transfer and a recognition call
    each return or raise. *)
Variable engine : Type.
Variable PaddleOCR : option (exc engine).
Variable _download_s3_object : option string -> option string -> exc string.
Variable _download_http : option string -> exc string.
Variable ocr : engine -> string -> exc ocr_output.

(** The state of the module: the global [_OCR], [None] until a handle
    has been built. *)
Definition global : Type := option engine.

(** [_init_ocr]: the handle of the lazy singleton. *)
Definition _init_ocr : io global engine :=
  fun _OCR =>
    match _OCR with
    | Some handle => (Return handle, _OCR)
    | None =>
        match PaddleOCR with
        | None => (Raise "PaddleOCR not available in runtime", _OCR)
        | Some (Return handle) => (Return handle, Some handle)
        | Some (Raise msg) => (Raise msg, _OCR)
        | Some (Escape class) => (Escape class, _OCR)
        end
    end.

(** [result[0] if isinstance(result, list) else []] *)
Definition first_page (res : ocr_output) : exc (option (list ocr_item)) :=
  match res with
  | OcrList [] => Raise "list index out of range"
  | OcrList (page :: _) => Return page
  | OcrOther => Return (Some [])
  end.

(** The body of the [try] block of [handler]. *)
Definition handler_body (ev : event)
  : io global (list candidate * list candidate) :=
  let bucket := s3Bucket ev in
  let key := s3Key ev in
  let image_url := imageUrl ev in
  if negb (present bucket && present key) && negb (present image_url)
  then io_raise missing_location
  else
    path <~ call (if present bucket && present key
                  then _download_s3_object bucket key
                  else _download_http image_url) ;;
    eng <~ _init_ocr ;;
    res <~ call (ocr eng path) ;;
    lines <~ call (first_page res) ;;
    io_return (_heuristic_candidates lines).

(** [handler(event, _context)], from the state of the module to the
    outcome and the new state.  [except Exception as e] turns an
    exception of class [Exception] into the returned dict; any other
    exception leaves [handler] as it entered the [try] block. *)
Definition handler (ev : event) (_OCR : global) : exc result * global :=
  match handler_body ev _OCR with
  | (Return (titles, authors), _OCR') =>
      (Return {| error := None;
                 title_candidates := titles;
                 author_candidates := authors;
                 language_guess := "en" |}, _OCR')
  | (Raise msg, _OCR') =>
      (Return {| error := Some msg;
                 title_candidates := [];
                 author_candidates := [];
                 language_guess := "en" |}, _OCR')
  | (Escape class, _OCR') => (Escape class, _OCR')
  end.
End Handler.

(** ** Notions used to state the properties *)

(** What one entry of the recognition result adds to [lines]. *)
Definition line_of (item : ocr_item) : list line :=
  match _bbox_area (item_bbox item), item_text item with
  | Some area, TStr text =>
      if PyStr.truthy text
      then [(PyStr.strip text, item_conf item, area)]
      else []
  | _, _ => []
  end.

(** The candidate built from a ranked line. *)
Definition candidate_of (ln : line) : candidate :=
  {| value := _norm (line_text ln);
     confidence := PyFloat.round3 (line_conf ln) |}.

(** A ranked line qualifies when its normalized text has at least three
    characters. *)
Definition qualifies (ln : line) : bool :=
  3 <=? PyStr.len (_norm (line_text ln)).

(** The rule of the specification for an author-like string. *)
Definition author_rule (t : string) : bool :=
  (PyStr.contains "," t || PyStr.contains " and " t || PyStr.contains " & " t)
  && (PyStr.len t <? 80).

(** [m] is a greatest, respectively least, element of [xs]. *)
Definition is_max (xs : list float) (m : float) : Prop :=
  In m xs /\ forall x, In x xs -> (x <=? m)%float = true.

Definition is_min (xs : list float) (m : float) : Prop :=
  In m xs /\ forall x, In x xs -> (m <=? x)%float = true.

Definition no_nan (xs : list float) : Prop :=
  forall x, In x xs -> is_nan x = false.

(** The point [[x, y]] of a pair of coordinates. *)
Definition point_of (p : float * float) : point := [fst p; snd p].

(** A float that is not negative: NaN, or a zero, a finite number or an
    infinity whose sign bit is clear. *)
Definition SFnonneg (f : spec_float) : Prop :=
  match f with
  | S754_nan => True
  | S754_zero s | S754_infinity s | S754_finite s _ _ => s = false
  end.

(** [a] may stand before [b] in a ranking by descending key. *)
Definition key_ge (A : Type) (key : A -> float) (a b : A) : Prop :=
  (key b <=? key a)%float = true.

(** The case-folded value that [_dedup] compares. *)
Definition folded (c : candidate) : string := PyStr.lower (value c).

(** The first occurrence of every non-empty case-folded value of
    [items], in the order of [items]. *)
Fixpoint first_occurrences (items : list candidate) : list candidate :=
  match items with
  | [] => []
  | c :: rest =>
      if PyStr.truthy (folded c)
      then c :: filter (fun d => negb (String.eqb (folded d) (folded c)))
                       (first_occurrences rest)
      else first_occurrences rest
  end.

(** What the specification says of a category: no two kept entries
    share a case-folded value, and of several classified candidates that
    share one, the first is kept. *)
Definition first_is_kept (items out : list candidate) : Prop :=
  NoDup (map folded out)
  /\ forall l1 c l2,
       items = l1 ++ c :: l2 ->
       ~ In (folded c) (map folded l1) ->
       In (folded c) (map folded l2) ->
       In c out.

(** What holds of a category: no two kept entries share a case-folded
    value, a kept entry is the first of the classified candidates with
    its case-folded value, and that first one is kept exactly when fewer
    than five distinct case-folded values stand before it. *)
Definition first_is_kept_up_to_cap (items out : list candidate) : Prop :=
  NoDup (map folded out)
  /\ (forall c, In c out ->
        exists l1 l2,
          items = l1 ++ c :: l2 /\ ~ In (folded c) (map folded l1))
  /\ (forall l1 c l2,
        items = l1 ++ c :: l2 ->
        ~ In (folded c) (map folded l1) ->
        (List.length (first_occurrences l1) < 5 -> In c out)
        /\ (5 <= List.length (first_occurrences l1) ->
            ~ In (folded c) (map folded out))).

(** ** Recognition results used as examples *)

(** The axis-aligned box of width [w] and height [h] at the origin. *)
Definition box (w h : float) : list point :=
  [[0; 0]; [w; 0]; [w; h]; [0; h]]%float.

(** Seven lines of falling confidence on boxes of the same size; the last
    two differ by case only. *)
Definition seven_titles : list ocr_item :=
  [ Item (box 10 10) (TStr "Emma") 0.99;
    Item (box 10 10) (TStr "Ulysses") 0.98;
    Item (box 10 10) (TStr "Dracula") 0.97;
    Item (box 10 10) (TStr "Walden") 0.96;
    Item (box 10 10) (TStr "Beloved") 0.95;
    Item (box 10 10) (TStr "HAMLET") 0.94;
    Item (box 10 10) (TStr "hamlet") 0.93 ]%float.

(** A small line read with high confidence, and a region a million
    times larger read with low confidence. *)
Definition small_sharp_large_blurred : list ocr_item :=
  [ Item (box 1 1) (TStr "Small sharp line") 0.9;
    Item (box 1000 1000) (TStr "Large blurred region") 0.5 ]%float.

(** Three lines on boxes with finite corners.  The area of the second
    box overflows to infinity, and with confidence 0 its salience is
    0 times infinity, NaN. *)
Definition overflowing_batch : list ocr_item :=
  [ Item (box 1 1) (TStr "Alpha") 0.2;
    Item (box 1e200 1e200) (TStr "Beta") 0;
    Item (box 1 1) (TStr "Delta") 0.9 ]%float.

(** What the specification says of confidence: in a ranking, a line of
    strictly higher confidence stands before a line of strictly lower
    confidence. *)
Definition ordered_by_confidence (rk : list line) : Prop :=
  forall i j a b,
    nth_error rk i = Some a ->
    nth_error rk j = Some b ->
    (line_conf b <? line_conf a)%float = true ->
    i < j.

(** The same of the sort key. *)
Definition ordered_by_salience (rk : list line) : Prop :=
  forall i j a b,
    nth_error rk i = Some a ->
    nth_error rk j = Some b ->
    (salience b <? salience a)%float = true ->
    i < j.

(** An entry on a bounding box of three points. *)
Definition three_point_item : ocr_item :=
  Item [[0; 0]; [10; 0]; [10; 10]]%float (TStr "Hamlet") 0.9%float.

(** What the specification says of an entry whose bounding box has fewer
    than four points: it is left out of the ranking, and the output is
    that of the other entries. *)
Definition short_bbox_excluded : Prop :=
  forall before item after,
    List.length (item_bbox item) < 4 ->
    collect_lines (before ++ item :: after) = collect_lines (before ++ after)
    /\ _heuristic_candidates (Some (before ++ item :: after))
       = _heuristic_candidates (Some (before ++ after)).

(** The two entries of the scenario of the specification, on bounding
    boxes [b1] and [b2]. *)
Definition gatsby_batch (b1 b2 : list point) : list ocr_item :=
  [ Item b1 (TStr "The Great Gatsby") 0.95;
    Item b2 (TStr "F. Scott Fitzgerald") 0.80 ]%float.

(** Two lines that differ by the case of "and" only. *)
Definition mixed_case_batch : list ocr_item :=
  [ Item (box 10 10) (TStr "X and Y") 0.9;
    Item (box 10 10) (TStr "X AND Y") 0.8 ]%float.

(** The two shapes of the dict that [handler] returns. *)
Definition success (titles authors : list candidate) : result :=
  {| error := None;
     title_candidates := titles;
     author_candidates := authors;
     language_guess := "en" |}.

Definition failure (msg : string) : result :=
  {| error := Some msg;
     title_candidates := [];
     author_candidates := [];
     language_guess := "en" |}.

(** The payload names a location: bucket and key, or a URL. *)
Definition located (ev : event) : bool :=
  (present (s3Bucket ev) && present (s3Key ev)) || present (imageUrl ev).

(** The transfer that [handler] makes for a payload. *)
Definition transfer
    (_download_s3_object : option string -> option string -> exc string)
    (_download_http : option string -> exc string)
    (ev : event) : exc string :=
  if present (s3Bucket ev) && present (s3Key ev)
  then _download_s3_object (s3Bucket ev) (s3Key ev)
  else _download_http (imageUrl ev).

(** Collaborators for an example: no object store, a URL that answers,
    and an engine that finds the two lines of [mixed_case_batch]. *)
Definition no_object_store (_ _ : option string) : exc string :=
  Raise "An error occurred (404) when calling the HeadObject operation".

Definition fetch_url (_ : option string) : exc string :=
  Return "/tmp/cover.jpg".

(** A URL transfer that is interrupted from the keyboard. *)
Definition interrupted (_ : option string) : exc string :=
  Escape "KeyboardInterrupt".

Definition build_engine : option (exc unit) := Some (Return tt).

Definition read_cover (_ : unit) (_ : string) : exc ocr_output :=
  Return (OcrList [Some mixed_case_batch]).

(** ** Shapes of strings *)

(** No character of [s] is whitespace. *)
Fixpoint no_space (s : string) : bool :=
  match s with
  | EmptyString => true
  | String c s' => negb (PyStr.isspace c) && no_space s'
  end.

(** Every character of [s] is whitespace. *)
Fixpoint all_space (s : string) : bool :=
  match s with
  | EmptyString => true
  | String c s' => PyStr.isspace c && all_space s'
  end.

(** Every whitespace character of [s] is the space U+0020 and follows a
    character that is not whitespace; [after_space] tells whether [s]
    follows a space or starts the string. *)
Fixpoint spaced (after_space : bool) (s : string) : bool :=
  match s with
  | EmptyString => true
  | String c s' =>
      if PyStr.isspace c
      then Ascii.eqb c " " && negb after_space && spaced true s'
      else spaced false s'
  end.

(** A word of [split]: not empty, and without whitespace. *)
Definition is_word (w : string) : Prop :=
  w <> EmptyString /\ no_space w = true.

(** [s] is made of runs of non-whitespace characters with one space
    between two runs and none in front. *)
Definition single_spaced (s : string) : bool := spaced true s.

(** Twenty fragments of two characters read with high confidence, and
    one title read with low confidence. *)
Definition fragments_then_title : list ocr_item :=
  repeat (Item (box 10 10) (TStr "ab") 0.9%float) 20
  ++ [Item (box 10 10) (TStr "Hamlet") 0.5%float].

(** * Properties *)

Unset Implicit Arguments.

(** ** The order of floats *)

Module FloatOrder.

Ltac cmp_cases :=
  repeat match goal with
  | |- context [Z.compare ?a ?b] => destruct (Z.compare_spec a b)
  | H : context [Z.compare ?a ?b] |- _ => destruct (Z.compare_spec a b)
  | |- context [Pos.compare_cont Eq ?a ?b] =>
      change (Pos.compare_cont Eq a b) with (Pos.compare a b);
      destruct (Pos.compare_spec a b)
  | H : context [Pos.compare_cont Eq ?a ?b] |- _ =>
      change (Pos.compare_cont Eq a b) with (Pos.compare a b) in H;
      destruct (Pos.compare_spec a b)
  end.

Ltac sf_order :=
  intros; simpl in *; try discriminate; try reflexivity; try congruence;
  cmp_cases; simpl in *; subst;
  try discriminate; try reflexivity; try congruence; try lia.

Ltac sf_destruct x :=
  let s := fresh "s" in
  let m := fresh "m" in
  let e := fresh "e" in
  destruct x as [[]|[]| |[] m e].

Lemma SFleb_trans x y z :
  SFleb x y = true -> SFleb y z = true -> SFleb x z = true.
Proof.
  unfold SFleb. sf_destruct x; sf_destruct y; sf_destruct z; sf_order.
Qed.

Lemma SFltb_SFleb x y : SFltb x y = true -> SFleb x y = true.
Proof. unfold SFltb, SFleb. destruct (SFcompare x y) as [[]|]; easy. Qed.

Lemma SFltb_not_SFleb x y : SFltb x y = true -> SFleb y x = false.
Proof.
  unfold SFltb, SFleb. sf_destruct x; sf_destruct y; sf_order.
Qed.

Lemma SFnot_ltb_leb x y :
  x <> S754_nan -> y <> S754_nan -> SFltb x y = false -> SFleb y x = true.
Proof.
  unfold SFltb, SFleb. sf_destruct x; sf_destruct y; sf_order.
Qed.

Lemma SFltb_eqb_excl x y k :
  SFltb x y = true -> SFeqb x k = true -> SFeqb y k = false.
Proof.
  unfold SFltb, SFeqb.
  sf_destruct x; sf_destruct y; sf_destruct k; sf_order.
Qed.

Lemma SFleb_refl x : x <> S754_nan -> SFleb x x = true.
Proof.
  unfold SFleb. sf_destruct x; sf_order.
Qed.

Local Open Scope float_scope.

Lemma is_nan_Prim2SF x : is_nan x = false -> Prim2SF x <> S754_nan.
Proof.
  unfold is_nan. rewrite eqb_spec. intros H E. rewrite E in H. discriminate.
Qed.

Lemma leb_trans x y z :
  (x <=? y) = true -> (y <=? z) = true -> (x <=? z) = true.
Proof. rewrite !leb_spec. apply SFleb_trans. Qed.

Lemma ltb_leb x y : (x <? y) = true -> (x <=? y) = true.
Proof. rewrite ltb_spec, leb_spec. apply SFltb_SFleb. Qed.

Lemma ltb_not_leb x y : (x <? y) = true -> (y <=? x) = false.
Proof. rewrite ltb_spec, leb_spec. apply SFltb_not_SFleb. Qed.

Lemma not_ltb_leb x y :
  is_nan x = false -> is_nan y = false ->
  (x <? y) = false -> (y <=? x) = true.
Proof.
  intros Hx Hy. rewrite ltb_spec, leb_spec.
  apply SFnot_ltb_leb; now apply is_nan_Prim2SF.
Qed.

Lemma ltb_eqb_excl x y k :
  (x <? y) = true -> (x =? k) = true -> (y =? k) = false.
Proof. rewrite ltb_spec, !eqb_spec. apply SFltb_eqb_excl. Qed.

Lemma leb_refl x : is_nan x = false -> (x <=? x) = true.
Proof.
  intros Hx. rewrite leb_spec. now apply SFleb_refl, is_nan_Prim2SF.
Qed.

End FloatOrder.

(** ** [sorted(..., reverse=True)] *)

Section SortedReverseFacts.
Variable A : Type.
Variable key : A -> float.

Local Open Scope float_scope.

Lemma insert_desc_perm x l : Permutation (x :: l) (insert_desc key x l).
Proof.
  induction l as [|y l IH]; simpl.
  - apply Permutation_refl.
  - destruct (key x <? key y).
    + eapply perm_trans; [apply perm_swap|]. now apply perm_skip.
    + apply Permutation_refl.
Qed.

Lemma sorted_reverse_perm l : Permutation l (sorted_reverse key l).
Proof.
  induction l as [|x l IH]; simpl.
  - constructor.
  - eapply perm_trans; [apply perm_skip, IH|]. apply insert_desc_perm.
Qed.

Lemma sorted_reverse_In a l : In a (sorted_reverse key l) <-> In a l.
Proof.
  split; apply Permutation_in;
    [apply Permutation_sym|]; apply sorted_reverse_perm.
Qed.

Lemma insert_desc_sorted x l :
  is_nan (key x) = false ->
  (forall a, In a l -> is_nan (key a) = false) ->
  StronglySorted (key_ge key) l ->
  StronglySorted (key_ge key) (insert_desc key x l).
Proof.
  intros Hx Hl Hs. induction Hs as [|y l Hs IH Hy]; simpl.
  - constructor; constructor.
  - destruct (key x <? key y) eqn:E.
    + constructor.
      * apply IH. intros a Ha. apply Hl. now right.
      * eapply Permutation_Forall; [apply insert_desc_perm|].
        constructor; [|exact Hy].
        unfold key_ge. now apply FloatOrder.ltb_leb.
    + assert (Hxy : key_ge key x y).
      { unfold key_ge. apply FloatOrder.not_ltb_leb; auto.
        apply Hl. now left. }
      constructor.
      * now constructor.
      * constructor; [exact Hxy|].
        rewrite Forall_forall in *. intros z Hz.
        unfold key_ge in *.
        eapply FloatOrder.leb_trans; [apply Hy, Hz | exact Hxy].
Qed.

Lemma sorted_reverse_sorted l :
  (forall a, In a l -> is_nan (key a) = false) ->
  StronglySorted (key_ge key) (sorted_reverse key l).
Proof.
  induction l as [|x l IH]; intros Hl; simpl.
  - constructor.
  - apply insert_desc_sorted.
    + apply Hl. now left.
    + intros a Ha. apply Hl. right. exact (proj1 (sorted_reverse_In a l) Ha).
    + apply IH. intros a Ha. apply Hl. now right.
Qed.

Lemma insert_desc_filter k x l :
  filter (fun a => key a =? k) (insert_desc key x l)
  = filter (fun a => key a =? k) (x :: l).
Proof.
  induction l as [|y l IH]; [reflexivity|].
  simpl insert_desc. destruct (key x <? key y) eqn:E; [|reflexivity].
  simpl in *. rewrite IH.
  destruct (key x =? k) eqn:Ex; [|reflexivity].
  now rewrite (FloatOrder.ltb_eqb_excl _ _ _ E Ex).
Qed.

Lemma sorted_reverse_stable k l :
  filter (fun a => key a =? k) (sorted_reverse key l)
  = filter (fun a => key a =? k) l.
Proof.
  induction l as [|x l IH]; [reflexivity|].
  simpl sorted_reverse. rewrite insert_desc_filter. simpl. now rewrite IH.
Qed.

End SortedReverseFacts.

(** ** The first loop: which entries become lines *)

Lemma try_item_line_of lines item :
  match try_item lines item with
  | Some lines' => lines'
  | None => lines
  end = lines ++ line_of item.
Proof.
  unfold try_item, line_of.
  destruct (_bbox_area (item_bbox item)) as [area|];
    [|now rewrite app_nil_r].
  destruct (item_text item) as [text|]; [|now rewrite app_nil_r].
  destruct (PyStr.truthy text); [reflexivity|now rewrite app_nil_r].
Qed.

Lemma collect_lines_flat_map ocr_result :
  collect_lines ocr_result = flat_map line_of ocr_result.
Proof.
  unfold collect_lines.
  enough (H : forall acc,
             fold_left
               (fun lines item =>
                  match try_item lines item with
                  | Some lines' => lines'
                  | None => lines
                  end) ocr_result acc
             = acc ++ flat_map line_of ocr_result) by apply (H []).
  induction ocr_result as [|item rest IH]; intros acc; simpl.
  - now rewrite app_nil_r.
  - rewrite IH, try_item_line_of. now rewrite <- app_assoc.
Qed.

(** ** The second loop: classification *)

Lemma too_short_qualifies ln :
  too_short (_norm (line_text ln)) = negb (qualifies ln).
Proof.
  unfold too_short, qualifies, PyStr.len.
  destruct (_norm (line_text ln)) as [|c s]; [reflexivity|].
  cbn [PyStr.truthy negb orb].
  destruct (Nat.ltb_spec (String.length (String c s)) 3);
    destruct (Nat.leb_spec 3 (String.length (String c s)));
    simpl; try reflexivity; lia.
Qed.

Lemma author_like_rule t : author_like t = author_rule t.
Proof.
  unfold author_like, author_rule, has_author_mark. simpl.
  now rewrite orb_false_r, orb_assoc.
Qed.

Lemma filter_andb (A : Type) (p q : A -> bool) l :
  filter (fun a => p a && q a) l = filter q (filter p l).
Proof.
  induction l as [|a l IH]; [reflexivity|]. simpl.
  destruct (p a); simpl; [destruct (q a)|]; now rewrite IH.
Qed.

Lemma classify_steps l title_cands author_cands :
  fold_left classify_step l (title_cands, author_cands)
  = (title_cands
       ++ map candidate_of
            (filter (fun ln => negb (author_rule (_norm (line_text ln))))
                    (filter qualifies l)),
     author_cands
       ++ map candidate_of
            (filter (fun ln => author_rule (_norm (line_text ln)))
                    (filter qualifies l))).
Proof.
  revert title_cands author_cands.
  induction l as [|ln l IH]; intros tc ac; simpl.
  - now rewrite !app_nil_r.
  - rewrite too_short_qualifies, author_like_rule.
    destruct (qualifies ln); simpl; [|apply IH].
    destruct (author_rule (_norm (line_text ln))); simpl;
      rewrite IH, <- app_assoc; reflexivity.
Qed.

Lemma classify_filter rk :
  classify rk
  = (map candidate_of
       (filter (fun ln => negb (author_rule (_norm (line_text ln))))
               (filter qualifies (firstn 20 rk))),
     map candidate_of
       (filter (fun ln => author_rule (_norm (line_text ln)))
               (filter qualifies (firstn 20 rk)))).
Proof. unfold classify. now rewrite classify_steps. Qed.

Lemma classify_In rk c :
  In c (fst (classify rk)) \/ In c (snd (classify rk)) ->
  exists ln, In ln (firstn 20 rk) /\ qualifies ln = true /\ c = candidate_of ln.
Proof.
  rewrite classify_filter. simpl.
  intros [H|H]; apply in_map_iff in H; destruct H as (ln & <- & H);
    apply filter_In in H; destruct H as (H & _);
    apply filter_In in H; destruct H as (H & Hq); eauto.
Qed.

(** ** Strings: lengths *)

Lemma substring_0_length n s : String.length (String.substring 0 n s) <= n.
Proof.
  revert s. induction n as [|n IH]; intros s.
  - destruct s; simpl; lia.
  - destruct s as [|c s]; simpl; [lia|]. specialize (IH s). lia.
Qed.

Lemma norm_len s : PyStr.len (_norm s) <= 200.
Proof. apply substring_0_length. Qed.

Lemma lower_truthy s : 3 <= PyStr.len s -> PyStr.truthy (PyStr.lower s) = true.
Proof. destruct s; simpl; [lia|reflexivity]. Qed.

(** ** [_dedup] keeps first occurrences *)

Lemma set_mem_add v d seen :
  set_mem string_dec d (set_add string_dec v seen)
  = String.eqb d v || set_mem string_dec d seen.
Proof.
  induction seen as [|a seen IH]; simpl.
  - destruct (string_dec d v) as [->|N].
    + now rewrite String.eqb_refl.
    + apply String.eqb_neq in N. now rewrite N.
  - destruct (string_dec v a) as [->|Nva]; simpl.
    + destruct (string_dec d a) as [->|N]; [now rewrite String.eqb_refl|].
      apply String.eqb_neq in N. now rewrite N.
    + destruct (string_dec d a) as [->|N]; [now rewrite orb_true_r|].
      exact IH.
Qed.

Lemma set_mem_In d (l : list string) :
  set_mem string_dec d l = true <-> In d l.
Proof.
  split; [apply set_mem_correct1 | apply set_mem_correct2].
Qed.

Lemma first_occurrences_truthy items c :
  In c (first_occurrences items) -> PyStr.truthy (folded c) = true.
Proof.
  induction items as [|a rest IH]; simpl; [easy|].
  destruct (PyStr.truthy (folded a)) eqn:E; [|exact IH].
  intros [<-|H]; [exact E|]. apply filter_In in H. now apply IH.
Qed.

Lemma first_occurrences_incl items c :
  In c (first_occurrences items) -> In c items.
Proof.
  induction items as [|a rest IH]; simpl; [easy|].
  destruct (PyStr.truthy (folded a)).
  - intros [<-|H]; [now left|]. apply filter_In in H. right. now apply IH.
  - intros H. right. now apply IH.
Qed.

Lemma dedup_steps items seen out :
  snd (fold_left dedup_step items (seen, out))
  = out ++ filter (fun d => negb (set_mem string_dec (folded d) seen))
                  (first_occurrences items).
Proof.
  revert seen out. induction items as [|c rest IH]; intros seen out.
  - simpl. now rewrite app_nil_r.
  - cbn [fold_left dedup_step first_occurrences]. fold (folded c).
    destruct (PyStr.truthy (folded c)) eqn:Et; cbn [andb].
    + destruct (set_mem string_dec (folded c) seen) eqn:Em; cbn [negb].
      * rewrite IH. f_equal. cbn [filter]. rewrite Em. cbn [negb].
        rewrite <- filter_andb. apply filter_ext_in. intros d _.
        destruct (String.eqb_spec (folded d) (folded c)) as [->|N];
          [now rewrite Em|reflexivity].
      * rewrite IH, <- app_assoc. f_equal. cbn [filter app].
        rewrite Em. cbn [negb]. f_equal.
        rewrite <- filter_andb. apply filter_ext. intros d.
        rewrite set_mem_add, negb_orb. reflexivity.
    + apply IH.
Qed.

Lemma filter_all (A : Type) (l : list A) : filter (fun _ => true) l = l.
Proof. induction l as [|a l IH]; simpl; congruence. Qed.

Lemma dedup_first_occurrences items :
  _dedup items = firstn 5 (first_occurrences items).
Proof.
  unfold _dedup. rewrite dedup_steps. cbn [app].
  rewrite (filter_ext _ (fun _ => true)) by reflexivity.
  now rewrite filter_all.
Qed.

Lemma NoDup_map_filter (A B : Type) (f : A -> B) (p : A -> bool) l :
  NoDup (map f l) -> NoDup (map f (filter p l)).
Proof.
  induction l as [|a l IH]; simpl; [easy|].
  intros H. inversion H as [|? ? Hn Hd]; subst.
  destruct (p a); simpl; [|now apply IH].
  constructor; [|now apply IH].
  intros Hin. apply Hn. apply in_map_iff in Hin.
  destruct Hin as (d & Hd' & Hin). apply filter_In in Hin.
  apply in_map_iff. exists d. tauto.
Qed.

Lemma first_occurrences_NoDup items :
  NoDup (map folded (first_occurrences items)).
Proof.
  induction items as [|c rest IH]; simpl; [constructor|].
  destruct (PyStr.truthy (folded c)); [|exact IH].
  simpl. constructor; [|now apply NoDup_map_filter].
  intros Hin. apply in_map_iff in Hin. destruct Hin as (d & Hd & Hin).
  apply filter_In in Hin. destruct Hin as (_ & Hne).
  rewrite Hd, String.eqb_refl in Hne. discriminate.
Qed.

Lemma first_occurrences_first items c :
  In c (first_occurrences items) ->
  exists l1 l2, items = l1 ++ c :: l2 /\ ~ In (folded c) (map folded l1).
Proof.
  induction items as [|a rest IH]; simpl; [easy|].
  destruct (PyStr.truthy (folded a)) eqn:Et.
  - intros [<-|H].
    + exists [], rest. split; [reflexivity|easy].
    + apply filter_In in H. destruct H as (H & Hne).
      destruct (IH H) as (l1 & l2 & -> & Hl1).
      exists (a :: l1), l2. split; [reflexivity|].
      simpl. intros [E|Hin]; [|tauto].
      rewrite E, String.eqb_refl in Hne. discriminate.
  - intros H. pose proof (first_occurrences_truthy _ _ H) as Hc.
    destruct (IH H) as (l1 & l2 & -> & Hl1).
    exists (a :: l1), l2. split; [reflexivity|].
    simpl. intros [E|Hin]; [|tauto]. congruence.
Qed.

Lemma first_occurrences_app l1 l2 :
  first_occurrences (l1 ++ l2)
  = first_occurrences l1
    ++ filter (fun d => negb (set_mem string_dec (folded d) (map folded l1)))
              (first_occurrences l2).
Proof.
  induction l1 as [|a l1 IH]; simpl.
  - now rewrite filter_all.
  - destruct (PyStr.truthy (folded a)) eqn:Et.
    + rewrite IH, filter_app. simpl. do 2 f_equal.
      rewrite <- filter_andb. apply filter_ext. intros d.
      destruct (string_dec (folded d) (folded a)) as [E|N].
      * rewrite E, String.eqb_refl. now rewrite andb_false_r.
      * apply String.eqb_neq in N. rewrite N. now rewrite andb_true_r.
    + rewrite IH. f_equal. apply filter_ext_in. intros d Hd.
      destruct (string_dec (folded d) (folded a)) as [E|N]; [|reflexivity].
      apply first_occurrences_truthy in Hd. congruence.
Qed.

(** Where the first occurrence of a value stands among the first
    occurrences. *)
Lemma first_occurrences_split l1 c l2 :
  PyStr.truthy (folded c) = true ->
  ~ In (folded c) (map folded l1) ->
  exists tl, first_occurrences (l1 ++ c :: l2)
             = first_occurrences l1 ++ c :: tl.
Proof.
  intros Ht Hn. rewrite first_occurrences_app. simpl. rewrite Ht. simpl.
  destruct (set_mem string_dec (folded c) (map folded l1)) eqn:Em.
  - apply set_mem_In in Em. contradiction.
  - simpl. eauto.
Qed.

(** ** The ranker as a whole *)

Lemma heuristic_candidates_eq ocr_result :
  _heuristic_candidates ocr_result
  = (_dedup (fst (classify (ranked (collect_lines (or_empty ocr_result))))),
     _dedup (snd (classify (ranked (collect_lines (or_empty ocr_result)))))).
Proof.
  unfold _heuristic_candidates.
  now destruct (classify (ranked (collect_lines (or_empty ocr_result)))).
Qed.

Lemma In_firstn (A : Type) n (l : list A) a : In a (firstn n l) -> In a l.
Proof.
  revert l. induction n as [|n IH]; intros [|b l]; simpl; try easy.
  intros [H|H]; [now left|right; now apply IH].
Qed.

Lemma dedup_incl items c : In c (_dedup items) -> In c items.
Proof.
  rewrite dedup_first_occurrences. intros H.
  apply first_occurrences_incl. eapply In_firstn. exact H.
Qed.

Lemma classified_value_len rk c :
  In c (fst (classify rk)) \/ In c (snd (classify rk)) ->
  3 <= PyStr.len (value c) <= 200.
Proof.
  intros H. apply classify_In in H. destruct H as (ln & _ & Hq & ->).
  simpl. split; [|apply norm_len].
  unfold qualifies in Hq. now apply Nat.leb_le in Hq.
Qed.

(** C1.  Of the first twenty ranked lines, those whose normalized text
    has at least three characters are the qualifying ones.  A qualifying
    line is classified author-like exactly when its normalized text
    contains a comma, " and " or " & " and is shorter than 80 characters;
    every other qualifying line is classified title-like, and each
    qualifying line is in exactly one of the two classes. *)
Theorem classification_rule (ocr_result : option (list ocr_item)) :
  let rk := ranked (collect_lines (or_empty ocr_result)) in
  let qualifying := filter qualifies (firstn 20 rk) in
  let norm := fun ln => _norm (line_text ln) in
  let authors := filter (fun ln => author_rule (norm ln)) qualifying in
  let titles := filter (fun ln => negb (author_rule (norm ln))) qualifying in
  classify rk = (map candidate_of titles, map candidate_of authors)
  /\ _heuristic_candidates ocr_result
     = (_dedup (map candidate_of titles), _dedup (map candidate_of authors))
  /\ (forall ln, In ln qualifying ->
        (In ln authors /\ ~ In ln titles) \/ (In ln titles /\ ~ In ln authors))
  /\ (forall ln, In ln authors <->
        In ln qualifying
        /\ (PyStr.contains "," (norm ln) = true
            \/ PyStr.contains " and " (norm ln) = true
            \/ PyStr.contains " & " (norm ln) = true)
        /\ PyStr.len (norm ln) < 80)
  /\ List.length titles + List.length authors = List.length qualifying.
Proof.
  intros rk qualifying norm authors titles.
  assert (Hc : classify rk = (map candidate_of titles, map candidate_of authors))
    by apply classify_filter.
  split; [exact Hc|]. split.
  { rewrite heuristic_candidates_eq. fold rk. now rewrite Hc. }
  split.
  { intros ln Hq. unfold authors, titles.
    destruct (author_rule (norm ln)) eqn:E; [left|right];
      (split; [apply filter_In; rewrite E; now split|]);
      intros H; apply filter_In in H; destruct H as (_ & H);
      rewrite E in H; discriminate. }
  split.
  { intros ln. unfold authors. rewrite filter_In. unfold author_rule.
    rewrite andb_true_iff, !orb_true_iff, Nat.ltb_lt. tauto. }
  unfold titles, authors. clear.
  induction qualifying as [|ln l IH]; simpl; [reflexivity|].
  destruct (author_rule (norm ln)); simpl; lia.
Qed.

(** C8.  Each output list has at most five entries, and the value of
    every output candidate has between 3 and 200 characters. *)
Theorem output_bounds (ocr_result : option (list ocr_item)) :
  let title_candidates := fst (_heuristic_candidates ocr_result) in
  let author_candidates := snd (_heuristic_candidates ocr_result) in
  List.length title_candidates <= 5
  /\ List.length author_candidates <= 5
  /\ forall c, In c title_candidates \/ In c author_candidates ->
               3 <= PyStr.len (value c) <= 200.
Proof.
  rewrite heuristic_candidates_eq. cbn [fst snd].
  split; [|split].
  - unfold _dedup. apply firstn_le_length.
  - unfold _dedup. apply firstn_le_length.
  - intros c H. eapply classified_value_len.
    destruct H as [H|H]; [left|right]; apply dedup_incl; exact H.
Qed.

(** ** Deduplication and the cap of five *)

(** Closes a goal from [H], a membership in a list of closed terms none
    of which is the member. *)
Ltac no_member H :=
  repeat (destruct H as [H|H]; [discriminate H|]); exact H.

Lemma NoDup_firstn (A : Type) n (l : list A) : NoDup l -> NoDup (firstn n l).
Proof.
  revert l. induction n as [|n IH]; intros [|a l] H; simpl;
    try constructor.
  - inversion H; subst. intros Hin. apply In_firstn in Hin. contradiction.
  - inversion H; subst. now apply IH.
Qed.

Lemma dedup_first_up_to_cap items :
  (forall c, In c items -> PyStr.truthy (folded c) = true) ->
  first_is_kept_up_to_cap items (_dedup items).
Proof.
  intros Ht. rewrite dedup_first_occurrences. split; [|split].
  - rewrite <- firstn_map. apply NoDup_firstn, first_occurrences_NoDup.
  - intros c H. apply first_occurrences_first. eapply In_firstn, H.
  - intros l1 c l2 E Hn.
    assert (Hc : PyStr.truthy (folded c) = true).
    { apply Ht. rewrite E. apply in_elt. }
    destruct (first_occurrences_split l1 c l2 Hc Hn) as (tl & Hs).
    rewrite E, Hs, firstn_app. split.
    + intros Hlt. apply in_or_app. right.
      destruct (5 - List.length (first_occurrences l1)) as [|k] eqn:Ek;
        [lia|]. now left.
    + intros Hge.
      replace (5 - List.length (first_occurrences l1)) with 0 by lia.
      rewrite firstn_0, app_nil_r. intros Hin. apply Hn.
      apply in_map_iff in Hin. destruct Hin as (d & Hd & Hin).
      apply in_map_iff. exists d. split; [exact Hd|].
      apply first_occurrences_incl. eapply In_firstn, Hin.
Qed.

(** C7, as amended.  In each category no two output entries have the
    same case-folded value; an output entry is the first, in ranked
    order, of the classified candidates with its case-folded value; and
    that first candidate is in the output when fewer than five distinct
    case-folded values stand before it in the category, while otherwise
    no candidate with its case-folded value is in the output. *)
Theorem dedup_keeps_first_up_to_cap (ocr_result : option (list ocr_item)) :
  let rk := ranked (collect_lines (or_empty ocr_result)) in
  first_is_kept_up_to_cap (fst (classify rk))
                          (fst (_heuristic_candidates ocr_result))
  /\ first_is_kept_up_to_cap (snd (classify rk))
                             (snd (_heuristic_candidates ocr_result)).
Proof.
  intros rk. rewrite heuristic_candidates_eq. fold rk. cbn [fst snd].
  split; apply dedup_first_up_to_cap; intros c Hc;
    apply lower_truthy; eapply classified_value_len; eauto.
Qed.

Lemma dedup_keeps_first_up_to_cap_witness :
  In (Candidate "Emma" 0.99%float)
     (fst (_heuristic_candidates (Some seven_titles)))
  /\ ~ In (folded (Candidate "HAMLET" 0.94%float))
          (map folded (fst (_heuristic_candidates (Some seven_titles)))).
Proof.
  destruct (dedup_keeps_first_up_to_cap (Some seven_titles))
    as [(_ & _ & H) _].
  split.
  - apply (H [] (Candidate "Emma" 0.99%float)
             (skipn 1 (fst (classify (ranked (collect_lines seven_titles))))));
      [vm_compute; reflexivity | intros [] | simpl; lia].
  - apply (H (firstn 5 (fst (classify (ranked (collect_lines seven_titles)))))
             (Candidate "HAMLET" 0.94%float)
             [Candidate "hamlet" 0.93%float]);
      [vm_compute; reflexivity
      | vm_compute; intros Hin; no_member Hin
      | vm_compute; lia].
Defined.

(** C7 fails as worded: of the seven lines of [seven_titles], all
    title-like, "HAMLET" is the first with its case-folded value and
    "hamlet" shares it, yet the output holds the five lines ranked
    before them and neither of the two. *)
Lemma first_is_kept_counterexample :
  ~ first_is_kept
      (fst (classify (ranked (collect_lines seven_titles))))
      (fst (_heuristic_candidates (Some seven_titles))).
Proof.
  intros [_ H].
  specialize (H [ Candidate "Emma" 0.99; Candidate "Ulysses" 0.98;
                  Candidate "Dracula" 0.97; Candidate "Walden" 0.96;
                  Candidate "Beloved" 0.95 ]%float
                (Candidate "HAMLET" 0.94%float)
                [ Candidate "hamlet" 0.93%float ]).
  assert (Hin : In (Candidate "HAMLET" 0.94%float)
                   (fst (_heuristic_candidates (Some seven_titles)))).
  { apply H.
    - vm_compute. reflexivity.
    - vm_compute. intros Hin. no_member Hin.
    - vm_compute. left. reflexivity. }
  apply (in_map value) in Hin. vm_compute in Hin. no_member Hin.
Qed.

(** ** Ranking *)

Lemma StronglySorted_nth (A : Type) (R : A -> A -> Prop) l :
  StronglySorted R l ->
  forall i j a b,
    i < j -> nth_error l i = Some a -> nth_error l j = Some b -> R a b.
Proof.
  induction 1 as [|x l Hs IH Hx]; intros i j a b Hij Ha Hb.
  - destruct i; discriminate.
  - destruct j as [|j]; [lia|]. simpl in Hb. destruct i as [|i].
    + simpl in Ha. injection Ha as <-.
      rewrite Forall_forall in Hx. apply Hx. eapply nth_error_In, Hb.
    + simpl in Ha. apply (IH i j); auto. lia.
Qed.

Lemma classify_firstn rk : classify (firstn 20 rk) = classify rk.
Proof. unfold classify. now rewrite firstn_firstn. Qed.

Lemma ranked_sorted lines :
  no_nan (map salience lines) ->
  StronglySorted (key_ge salience) (ranked lines).
Proof.
  intros Hn. apply sorted_reverse_sorted. intros a Ha.
  apply Hn. now apply in_map.
Qed.

(** C2, as amended.  The lines that are ranked are those of the entries
    whose area can be computed and whose text is a non-empty string.  When no
    salience is NaN, the ranking is a rearrangement of them in which no
    line stands before one of greater salience and lines of equal
    salience keep the order of the input.  Only the first twenty of the
    ranking are classified: the output is computed from them, and every
    output candidate is built from one of them. *)
Theorem ranking_by_salience (ocr_result : option (list ocr_item)) :
  let lines := collect_lines (or_empty ocr_result) in
  let top := firstn 20 (ranked lines) in
  no_nan (map salience lines) ->
  lines = flat_map line_of (or_empty ocr_result)
  /\ (forall ln, salience ln
                 = (line_conf ln * (1 + line_area ln / 10000))%float)
  /\ Permutation lines (ranked lines)
  /\ StronglySorted (key_ge salience) (ranked lines)
  /\ (forall k,
        filter (fun ln => (salience ln =? k)%float) (ranked lines)
        = filter (fun ln => (salience ln =? k)%float) lines)
  /\ _heuristic_candidates ocr_result
     = (_dedup (fst (classify top)), _dedup (snd (classify top)))
  /\ (forall c,
        In c (fst (_heuristic_candidates ocr_result))
        \/ In c (snd (_heuristic_candidates ocr_result)) ->
        exists ln, In ln top /\ c = candidate_of ln).
Proof.
  intros lines top Hn.
  split; [apply collect_lines_flat_map|].
  split; [reflexivity|].
  split; [apply sorted_reverse_perm|].
  split; [now apply ranked_sorted|].
  split; [intros k; apply sorted_reverse_stable|].
  split.
  - unfold top. rewrite classify_firstn. apply heuristic_candidates_eq.
  - intros c Hc. rewrite heuristic_candidates_eq in Hc. cbn [fst snd] in Hc.
    destruct (classify_In (ranked lines) c) as (ln & Hln & _ & E).
    + destruct Hc as [Hc|Hc]; [left|right]; apply dedup_incl; exact Hc.
    + exists ln. now split.
Qed.

Lemma seven_titles_no_nan :
  no_nan (map salience (collect_lines seven_titles)).
Proof.
  intros x Hx. vm_compute in Hx.
  repeat (destruct Hx as [<-|Hx]; [reflexivity|]). contradiction.
Qed.

Lemma ranking_by_salience_witness :
  Permutation (collect_lines seven_titles)
              (ranked (collect_lines seven_titles))
  /\ StronglySorted (key_ge salience) (ranked (collect_lines seven_titles)).
Proof.
  pose proof (ranking_by_salience (Some seven_titles) seven_titles_no_nan)
    as (_ & _ & Hp & Hs & _).
  split; assumption.
Defined.

(** C2 fails as worded: in [overflowing_batch] the salience of "Beta"
    is NaN, no comparison with it holds, and "Alpha", of salience about
    0.2, stays ranked before "Delta", of salience about 0.9.  (CPython
    does the same on these three lines: after the reversal for
    [reverse=True] they are one run that [<] never breaks, nothing is
    moved, and the list is reversed back.) *)
Lemma ranking_by_salience_counterexample :
  nth_error (ranked (collect_lines overflowing_batch)) 0
  = Some ("Alpha", 0.2, 1)%float
  /\ nth_error (ranked (collect_lines overflowing_batch)) 2
     = Some ("Delta", 0.9, 1)%float
  /\ (salience ("Alpha", 0.2, 1) <? salience ("Delta", 0.9, 1))%float = true
  /\ (exists beta,
        nth_error (ranked (collect_lines overflowing_batch)) 1 = Some beta
        /\ line_text beta = "Beta" /\ is_nan (salience beta) = true)
  /\ ~ StronglySorted (key_ge salience)
        (ranked (collect_lines overflowing_batch)).
Proof.
  split; [vm_compute; reflexivity|].
  split; [vm_compute; reflexivity|].
  split; [vm_compute; reflexivity|].
  split.
  { exists ("Beta", 0, infinity)%float. repeat split; vm_compute; reflexivity. }
  intros H.
  pose proof (StronglySorted_nth _ _ _ H 0 2
                ("Alpha", 0.2, 1)%float ("Delta", 0.9, 1)%float) as Hge.
  unfold key_ge in Hge.
  assert (C : (salience ("Delta", 0.9, 1) <=? salience ("Alpha", 0.2, 1))%float
              = true).
  { apply Hge; [lia|vm_compute; reflexivity|vm_compute; reflexivity]. }
  vm_compute in C. discriminate C.
Qed.

(** C5 fails as worded: the large region read with confidence 0.5 has
    salience 50.5 and is ranked before the small line read with
    confidence 0.9, whose salience is below 1. *)
Lemma ordered_by_confidence_counterexample :
  ~ ordered_by_confidence (ranked (collect_lines small_sharp_large_blurred)).
Proof.
  intros H.
  specialize (H 1 0 ("Small sharp line", 0.9, 1)%float
                    ("Large blurred region", 0.5, 1000000)%float).
  assert (C : 1 < 0); [|lia].
  apply H; vm_compute; reflexivity.
Qed.

(** C5, as amended.  When no salience is NaN, a line of strictly higher
    salience, confidence times (1 + area / 10000), is never ranked below
    a line of strictly lower salience. *)
Theorem ranking_ordered_by_salience (ocr_result : option (list ocr_item)) :
  let lines := collect_lines (or_empty ocr_result) in
  no_nan (map salience lines) ->
  ordered_by_salience (ranked lines).
Proof.
  intros lines Hn i j a b Ha Hb Hlt.
  destruct (Nat.lt_trichotomy i j) as [Hij|[->|Hji]]; [exact Hij| |].
  - rewrite Ha in Hb. injection Hb as <-.
    pose proof (FloatOrder.ltb_not_leb _ _ Hlt) as Hle.
    rewrite FloatOrder.leb_refl in Hle; [discriminate|].
    apply Hn, in_map.
    apply (proj1 (sorted_reverse_In _ salience a lines)).
    eapply nth_error_In, Ha.
  - pose proof (StronglySorted_nth _ _ _ (ranked_sorted lines Hn)
                  j i b a Hji Hb Ha) as Hge.
    unfold key_ge in Hge.
    rewrite (FloatOrder.ltb_not_leb _ _ Hlt) in Hge. discriminate.
Qed.

Lemma small_sharp_large_blurred_no_nan :
  no_nan (map salience (collect_lines small_sharp_large_blurred)).
Proof.
  intros x Hx. vm_compute in Hx.
  repeat (destruct Hx as [<-|Hx]; [reflexivity|]). contradiction.
Qed.

Lemma ranking_ordered_by_salience_witness :
  ordered_by_salience (ranked (collect_lines small_sharp_large_blurred)).
Proof.
  exact (ranking_ordered_by_salience (Some small_sharp_large_blurred)
           small_sharp_large_blurred_no_nan).
Defined.

(** ** [_bbox_area] *)

Section MaxMin.
Local Open Scope float_scope.

Lemma fold_max_spec rest m0 :
  no_nan (m0 :: rest) ->
  let m := fold_left (fun m y => if PyFloat.gt y m then y else m) rest m0 in
  In m (m0 :: rest) /\ forall x, In x (m0 :: rest) -> (x <=? m) = true.
Proof.
  revert m0. induction rest as [|y r IH]; intros m0 Hn; cbn zeta.
  - simpl. split; [now left|]. intros x [<-|[]].
    apply FloatOrder.leb_refl, Hn. now left.
  - cbn [fold_left]. unfold PyFloat.gt at 2.
    set (m1 := if m0 <? y then y else m0).
    assert (Hm0 : is_nan m0 = false) by (apply Hn; now left).
    assert (Hy : is_nan y = false) by (apply Hn; right; now left).
    assert (H1 : (m0 <=? m1) = true /\ (y <=? m1) = true
                 /\ (m1 = m0 \/ m1 = y)).
    { unfold m1. destruct (m0 <? y) eqn:E.
      - split; [now apply FloatOrder.ltb_leb|].
        split; [now apply FloatOrder.leb_refl|now right].
      - split; [now apply FloatOrder.leb_refl|].
        split; [now apply FloatOrder.not_ltb_leb|now left]. }
    destruct H1 as (H0 & Hy1 & Hm1).
    destruct (IH m1) as (Hin & Hge).
    { intros x [<-|Hx]; [destruct Hm1 as [->| ->]; assumption|].
      apply Hn. right. now right. }
    split.
    + destruct Hin as [<-|Hin]; [|right; now right].
      destruct Hm1 as [->| ->]; [now left|right; now left].
    + intros x [<-|[<-|Hx]].
      * eapply FloatOrder.leb_trans; [exact H0|]. apply Hge. now left.
      * eapply FloatOrder.leb_trans; [exact Hy1|]. apply Hge. now left.
      * apply Hge. now right.
Qed.

Lemma fold_min_spec rest m0 :
  no_nan (m0 :: rest) ->
  let m := fold_left (fun m y => if y <? m then y else m) rest m0 in
  In m (m0 :: rest) /\ forall x, In x (m0 :: rest) -> (m <=? x) = true.
Proof.
  revert m0. induction rest as [|y r IH]; intros m0 Hn; cbn zeta.
  - simpl. split; [now left|]. intros x [<-|[]].
    apply FloatOrder.leb_refl, Hn. now left.
  - cbn [fold_left].
    set (m1 := if y <? m0 then y else m0).
    assert (Hm0 : is_nan m0 = false) by (apply Hn; now left).
    assert (Hy : is_nan y = false) by (apply Hn; right; now left).
    assert (H1 : (m1 <=? m0) = true /\ (m1 <=? y) = true
                 /\ (m1 = m0 \/ m1 = y)).
    { unfold m1. destruct (y <? m0) eqn:E.
      - split; [now apply FloatOrder.ltb_leb|].
        split; [now apply FloatOrder.leb_refl|now right].
      - split; [now apply FloatOrder.leb_refl|].
        split; [now apply FloatOrder.not_ltb_leb|now left]. }
    destruct H1 as (H0 & Hy1 & Hm1).
    destruct (IH m1) as (Hin & Hge).
    { intros x [<-|Hx]; [destruct Hm1 as [->| ->]; assumption|].
      apply Hn. right. now right. }
    split.
    + destruct Hin as [<-|Hin]; [|right; now right].
      destruct Hm1 as [->| ->]; [now left|right; now left].
    + intros x [<-|[<-|Hx]].
      * eapply FloatOrder.leb_trans; [|exact H0]. apply Hge. now left.
      * eapply FloatOrder.leb_trans; [|exact Hy1]. apply Hge. now left.
      * apply Hge. now right.
Qed.

Lemma max_seq_is_max xs m :
  no_nan xs -> PyFloat.max_seq xs = Some m -> is_max xs m.
Proof.
  destruct xs as [|x rest]; [discriminate|].
  intros Hn [= <-]. now apply fold_max_spec.
Qed.

Lemma min_seq_is_min xs m :
  no_nan xs -> PyFloat.min_seq xs = Some m -> is_min xs m.
Proof.
  destruct xs as [|x rest]; [discriminate|].
  intros Hn [= <-]. now apply fold_min_spec.
Qed.

(** The sign of a product. *)

Lemma binary_round_aux_sign sx mx ex lx :
  match binary_round_aux prec emax sx mx ex lx with
  | S754_nan => True
  | S754_zero s | S754_infinity s | S754_finite s _ _ => s = sx
  end.
Proof.
  unfold binary_round_aux.
  destruct (shr_fexp prec emax mx ex lx) as [mrs' e'].
  destruct (shr_fexp prec emax _ e' loc_Exact) as [mrs'' e''].
  destruct (shr_m mrs''); try easy.
  now destruct (Z.leb e'' (emax - prec)).
Qed.

Lemma SFmul_nonneg x y :
  SFnonneg x -> SFnonneg y -> SFnonneg (SFmul prec emax x y).
Proof.
  destruct x as [sx|sx| |sx mx ex], y as [sy|sy| |sy my ey]; simpl;
    try easy; try (intros -> ->; reflexivity).
  intros -> ->. simpl.
  pose proof (binary_round_aux_sign false (Zpos (mx * my)) (ex + ey)
                loc_Exact) as H.
  now destruct (binary_round_aux prec emax false (Zpos (mx * my))
                  (ex + ey) loc_Exact).
Qed.

Lemma SFnonneg_not_negative x :
  SFnonneg x -> SFltb x (S754_zero false) = false.
Proof. destruct x as [s|s| |s m e]; simpl; try easy; now intros ->. Qed.

Lemma max2_0_nonneg d : SFnonneg (Prim2SF (PyFloat.max2 0 d)).
Proof.
  unfold PyFloat.max2, PyFloat.gt. destruct (0 <? d) eqn:E.
  - rewrite ltb_spec in E. change (Prim2SF 0) with (S754_zero false) in E.
    destruct (Prim2SF d) as [s|[]| |[] m e]; simpl in *;
      try discriminate; reflexivity.
  - reflexivity.
Qed.

Lemma floored_product_not_negative a b :
  (PyFloat.max2 0 a * PyFloat.max2 0 b <? 0) = false.
Proof.
  rewrite ltb_spec, mul_spec. change (Prim2SF 0) with (S754_zero false).
  apply SFnonneg_not_negative, SFmul_nonneg; apply max2_0_nonneg.
Qed.

End MaxMin.

Lemma coords_point_of (pts : list (float * float)) :
  coords 0 (map point_of pts) = Some (map fst pts)
  /\ coords 1 (map point_of pts) = Some (map snd pts).
Proof.
  induction pts as [|p pts [IH0 IH1]]; [now split|].
  simpl. now rewrite IH0, IH1.
Qed.

Lemma bbox_area_not_negative bbox area :
  _bbox_area bbox = Some area -> (area <? 0)%float = false.
Proof.
  unfold _bbox_area.
  destruct (coords 0 bbox) as [xs|]; [|discriminate].
  destruct (coords 1 bbox) as [ys|]; [|discriminate].
  destruct (PyFloat.max_seq xs); [|discriminate].
  destruct (PyFloat.min_seq xs); [|discriminate].
  destruct (PyFloat.max_seq ys); [|discriminate].
  destruct (PyFloat.min_seq ys); [|discriminate].
  intros [= <-]. apply floored_product_not_negative.
Qed.

(** C3.  For a non-empty list of (x, y) points the estimator returns the
    product of [max(0.0, max xs - min xs)] and [max(0.0, max ys - min ys)],
    where [max(0.0, d)] is [d] when [d] is positive and [0.0] otherwise;
    when no coordinate is NaN, [max] and [min] are a greatest and a least
    coordinate; and the result is never below zero, for these points and
    for every bounding box on which the estimator returns. *)
Theorem bbox_area_contract (pts : list (float * float)) :
  pts <> [] ->
  let xs := map fst pts in
  let ys := map snd pts in
  exists max_x min_x max_y min_y,
    PyFloat.max_seq xs = Some max_x
    /\ PyFloat.min_seq xs = Some min_x
    /\ PyFloat.max_seq ys = Some max_y
    /\ PyFloat.min_seq ys = Some min_y
    /\ (no_nan xs -> is_max xs max_x /\ is_min xs min_x)
    /\ (no_nan ys -> is_max ys max_y /\ is_min ys min_y)
    /\ _bbox_area (map point_of pts)
       = Some (PyFloat.max2 0 (max_x - min_x)
               * PyFloat.max2 0 (max_y - min_y))%float
    /\ (forall d, PyFloat.max2 0 d = (if (0 <? d)%float then d else 0%float))
    /\ (PyFloat.max2 0 (max_x - min_x) * PyFloat.max2 0 (max_y - min_y)
        <? 0)%float = false
    /\ (forall bbox area,
          _bbox_area bbox = Some area -> (area <? 0)%float = false).
Proof.
  intros Hne xs ys.
  destruct (PyFloat.max_seq xs) as [max_x|] eqn:Emx;
    [|destruct pts; [contradiction|discriminate]].
  destruct (PyFloat.min_seq xs) as [min_x|] eqn:Enx;
    [|destruct pts; [contradiction|discriminate]].
  destruct (PyFloat.max_seq ys) as [max_y|] eqn:Emy;
    [|destruct pts; [contradiction|discriminate]].
  destruct (PyFloat.min_seq ys) as [min_y|] eqn:Eny;
    [|destruct pts; [contradiction|discriminate]].
  exists max_x, min_x, max_y, min_y.
  repeat (split; [reflexivity|]).
  split; [intros Hn; split;
          [now apply max_seq_is_max | now apply min_seq_is_min]|].
  split; [intros Hn; split;
          [now apply max_seq_is_max | now apply min_seq_is_min]|].
  split.
  - unfold _bbox_area. destruct (coords_point_of pts) as [-> ->].
    fold xs ys. now rewrite Emx, Enx, Emy, Eny.
  - split; [reflexivity|].
    split; [apply floored_product_not_negative|apply bbox_area_not_negative].
Qed.

Lemma bbox_area_contract_witness :
  _bbox_area (box 10 5) = Some 50%float.
Proof.
  assert (Hne : [(0, 0); (10, 0); (10, 5); (0, 5)]%float <> [])
    by discriminate.
  destruct (bbox_area_contract [(0, 0); (10, 0); (10, 5); (0, 5)]%float Hne)
    as (max_x & min_x & max_y & min_y & Emx & Enx & Emy & Eny & _ & _ & E & _).
  injection Emx as <-. injection Enx as <-.
  injection Emy as <-. injection Eny as <-.
  exact E.
Defined.

(** ** Entries on short bounding boxes *)

Lemma bbox_area_nil : _bbox_area [] = None.
Proof. reflexivity. Qed.

Lemma bbox_area_points (pts : list (float * float)) :
  pts <> [] -> exists area, _bbox_area (map point_of pts) = Some area.
Proof.
  intros Hne. unfold _bbox_area.
  destruct (coords_point_of pts) as [-> ->].
  destruct pts as [|p pts]; [contradiction|]. simpl. eauto.
Qed.

(** C4 fails as worded: the entry on three points is ranked, and it is in
    the output. *)
Lemma short_bbox_excluded_counterexample : ~ short_bbox_excluded.
Proof.
  intros H.
  destruct (H [] three_point_item []) as [Hl _]; [simpl; lia|].
  vm_compute in Hl. discriminate Hl.
Qed.

(** C4, as amended.  An entry whose bounding box has no point is left
    out of the ranking, and the lines and the output are those of the
    other entries.  An entry whose bounding box has one point or more,
    each with its two coordinates, is not left out: when its text is a
    non-empty string it adds one line to the ranking, with the area of
    the box that its points span.  The ranker returns in both cases. *)
Theorem short_bbox_handling (before after : list ocr_item) (item : ocr_item) :
  (item_bbox item = [] ->
   collect_lines (before ++ item :: after) = collect_lines (before ++ after)
   /\ _heuristic_candidates (Some (before ++ item :: after))
      = _heuristic_candidates (Some (before ++ after)))
  /\ (forall pts text,
        item_bbox item = map point_of pts ->
        pts <> [] ->
        item_text item = TStr text ->
        text <> "" ->
        exists area,
          _bbox_area (item_bbox item) = Some area
          /\ collect_lines (before ++ item :: after)
             = collect_lines before
               ++ (PyStr.strip text, item_conf item, area)
               :: collect_lines after).
Proof.
  split.
  - intros Hb.
    assert (Hl : collect_lines (before ++ item :: after)
                 = collect_lines (before ++ after)).
    { rewrite !collect_lines_flat_map, !flat_map_app. simpl.
      unfold line_of at 2. now rewrite Hb, bbox_area_nil. }
    split; [exact Hl|].
    rewrite !heuristic_candidates_eq. cbn [or_empty]. now rewrite Hl.
  - intros pts text Hb Hne Ht Htext.
    destruct (bbox_area_points pts Hne) as (area & Ha).
    exists area. rewrite Hb. split; [exact Ha|].
    rewrite !collect_lines_flat_map, !flat_map_app. simpl.
    unfold line_of at 2. rewrite Hb, Ha, Ht.
    destruct text; [contradiction|reflexivity].
Qed.

Lemma short_bbox_handling_witness :
  collect_lines [three_point_item] = [("Hamlet", 0.9, 100)%float]
  /\ collect_lines [Item [] (TStr "Hamlet") 0.9%float] = [].
Proof.
  destruct (short_bbox_handling [] [] three_point_item) as [_ H3].
  destruct (H3 [(0, 0); (10, 0); (10, 10)]%float "Hamlet" eq_refl)
    as (area & Ha & Hl); try discriminate; try reflexivity.
  injection Ha as <-.
  destruct (short_bbox_handling [] [] (Item [] (TStr "Hamlet") 0.9%float))
    as [H0 _].
  destruct (H0 eq_refl) as [Hl0 _].
  split; [exact Hl|exact Hl0].
Defined.

(** ** The scenarios of the specification *)

(** C6 fails as worded: on boxes of area 100 and 50 the second line,
    which is title-like, is in the title candidates as well. *)
Lemma gatsby_counterexample :
  _bbox_area (box 10 10) = Some 100%float
  /\ _bbox_area (box 10 5) = Some 50%float
  /\ _heuristic_candidates (Some (gatsby_batch (box 10 10) (box 10 5)))
     <> ([Candidate "The Great Gatsby" 0.95%float], []).
Proof.
  split; [reflexivity|]. split; [reflexivity|].
  vm_compute. discriminate.
Qed.

(** C6, as amended.  For the two entries of the scenario, on bounding
    boxes of area 100 and 50, the title candidates are "The Great Gatsby"
    with confidence 0.95 followed by "F. Scott Fitzgerald" with
    confidence 0.8, and there is no author candidate. *)
Theorem gatsby_scenario (b1 b2 : list point) :
  _bbox_area b1 = Some 100%float ->
  _bbox_area b2 = Some 50%float ->
  _heuristic_candidates (Some (gatsby_batch b1 b2))
  = ([ Candidate "The Great Gatsby" 0.95%float;
       Candidate "F. Scott Fitzgerald" 0.8%float ], []).
Proof.
  intros H1 H2. rewrite heuristic_candidates_eq.
  cbn [or_empty]. rewrite collect_lines_flat_map.
  unfold gatsby_batch, flat_map, line_of. cbn [item_bbox item_text item_conf].
  rewrite H1, H2. vm_compute. reflexivity.
Qed.

Lemma gatsby_scenario_witness :
  _heuristic_candidates (Some (gatsby_batch (box 10 10) (box 10 5)))
  = ([ Candidate "The Great Gatsby" 0.95%float;
       Candidate "F. Scott Fitzgerald" 0.8%float ], []).
Proof.
  apply (gatsby_scenario (box 10 10) (box 10 5)); reflexivity.
Defined.

(** C10.  The same case-folded value can be in both output lists: "X
    and Y" is author-like, "X AND Y" is title-like, and both case-fold
    to "x and y". *)
Theorem shared_value_across_categories :
  exists ocr_result t a,
    In t (fst (_heuristic_candidates ocr_result))
    /\ In a (snd (_heuristic_candidates ocr_result))
    /\ folded t = folded a.
Proof.
  exists (Some mixed_case_batch),
         (Candidate "X AND Y" 0.8%float), (Candidate "X and Y" 0.9%float).
  split; [vm_compute; left; reflexivity|].
  split; [vm_compute; left; reflexivity|].
  vm_compute. reflexivity.
Qed.

(** ** [handler] *)

Section HandlerFacts.
Variable engine : Type.
Variable PaddleOCR : option (exc engine).
Variable _download_s3_object : option string -> option string -> exc string.
Variable _download_http : option string -> exc string.
Variable ocr : engine -> string -> exc ocr_output.

Lemma handler_of_body ev g :
  fst (handler PaddleOCR _download_s3_object _download_http ocr ev g)
  = match fst (handler_body PaddleOCR _download_s3_object _download_http
                 ocr ev g)
    with
    | Return ta => Return (success (fst ta) (snd ta))
    | Raise msg => Return (failure msg)
    | Escape class => Escape class
    end.
Proof.
  unfold handler.
  now destruct (handler_body _ _ _ _ ev g)
    as [[[titles authors]|msg|class] g'].
Qed.

Lemma handler_body_steps ev g :
  fst (handler_body PaddleOCR _download_s3_object _download_http ocr ev g)
  = if located ev
    then match transfer _download_s3_object _download_http ev with
         | Return path =>
             match fst (_init_ocr PaddleOCR g) with
             | Return eng =>
                 match ocr eng path with
                 | Return res =>
                     match first_page res with
                     | Return lines => Return (_heuristic_candidates lines)
                     | Raise msg => Raise msg
                     | Escape class => Escape class
                     end
                 | Raise msg => Raise msg
                 | Escape class => Escape class
                 end
             | Raise msg => Raise msg
             | Escape class => Escape class
             end
         | Raise msg => Raise msg
         | Escape class => Escape class
         end
    else Raise missing_location.
Proof.
  unfold handler_body, located, transfer.
  destruct (present (s3Bucket ev) && present (s3Key ev));
    destruct (present (imageUrl ev)); cbn [negb andb orb]; try reflexivity;
    unfold io_bind, call, io_return;
    match goal with
    | |- context [match ?d with
                  | Return _ => _ | Raise _ => _ | Escape _ => _
                  end] =>
        destruct d as [path|msg|class]; try reflexivity
    end;
    (destruct (_init_ocr PaddleOCR g) as [[eng|msg|class] g'];
     try reflexivity);
    cbn [fst];
    (destruct (ocr eng path) as [res|msg|class]; try reflexivity);
    (destruct (first_page res) as [lines|msg|class]; reflexivity).
Qed.

Lemma first_page_never_escapes res class : first_page res <> Escape class.
Proof. destruct res as [[|page pages]|]; discriminate. Qed.

(** C9, as amended.  [handler] never lets an exception of class
    [Exception] reach its caller, and what it returns always has the
    two candidate lists and [language_guess] "en".  It returns the
    result of the ranker, with no [error], when every step returns;
    when a step raises an [Exception] (no image location in the
    payload, the transfer, the engine handle, the recognition call, an
    empty recognition result) it returns the message of the exception
    in [error] and both lists empty.  An exception that is not an
    [Exception] reaches the caller exactly when a transfer, the
    constructor of the engine or the recognition call raises it. *)
Theorem handler_result (ev : event) (g : option engine) :
  let run :=
    fst (handler PaddleOCR _download_s3_object _download_http ocr ev g) in
  let fetch := transfer _download_s3_object _download_http ev in
  let handle := fst (_init_ocr PaddleOCR g) in
  (forall msg, run <> Raise msg)
  /\ (forall r,
        run = Return r ->
        language_guess r = "en"
        /\ ((exists titles authors, r = success titles authors)
            \/ (exists msg, r = failure msg)))
  /\ (located ev = false -> run = Return (failure missing_location))
  /\ (forall msg,
        located ev = true -> fetch = Raise msg ->
        run = Return (failure msg))
  /\ (forall path msg,
        located ev = true -> fetch = Return path ->
        handle = Raise msg -> run = Return (failure msg))
  /\ (g = None -> PaddleOCR = None ->
      handle = Raise "PaddleOCR not available in runtime")
  /\ (forall path eng msg,
        located ev = true -> fetch = Return path ->
        handle = Return eng -> ocr eng path = Raise msg ->
        run = Return (failure msg))
  /\ (forall path eng res msg,
        located ev = true -> fetch = Return path ->
        handle = Return eng -> ocr eng path = Return res ->
        first_page res = Raise msg ->
        run = Return (failure msg))
  /\ (forall path eng res lines,
        located ev = true -> fetch = Return path ->
        handle = Return eng -> ocr eng path = Return res ->
        first_page res = Return lines ->
        run = Return (success (fst (_heuristic_candidates lines))
                              (snd (_heuristic_candidates lines))))
  /\ (forall class,
        run = Escape class <->
        located ev = true
        /\ (fetch = Escape class
            \/ exists path,
                 fetch = Return path
                 /\ (handle = Escape class
                     \/ exists eng,
                          handle = Return eng
                          /\ ocr eng path = Escape class))).
Proof.
  intros run fetch handle. unfold run, fetch, handle.
  split; [|split].
  - intros msg. rewrite handler_of_body.
    now destruct (fst (handler_body _ _ _ _ ev g)).
  - intros r. rewrite handler_of_body.
    destruct (fst (handler_body _ _ _ _ ev g)) as [ta|msg|class];
      intros [= <-]; (split; [reflexivity|]); [left|right]; eauto.
  - rewrite handler_of_body, handler_body_steps.
    repeat match goal with |- _ /\ _ => split end;
      try (intros;
           repeat match goal with
                  | H : _ = _ |- _ => rewrite H
                  end; reflexivity).
    intros class.
    destruct (located ev); [|split; [discriminate|now intros [? _]]].
    destruct (transfer _download_s3_object _download_http ev)
      as [path|msg|c].
    + destruct (fst (_init_ocr PaddleOCR g)) as [eng|msg|c].
      * destruct (ocr eng path) as [res|msg|c] eqn:Eo.
        -- destruct (first_page res) as [lines|msg|c] eqn:Ef.
           ++ split; [discriminate|].
              intros (_ & [H|(p & [= <-] & [H|(e & [= <-] & H)])]);
                congruence.
           ++ split; [discriminate|].
              intros (_ & [H|(p & [= <-] & [H|(e & [= <-] & H)])]);
                congruence.
           ++ now apply first_page_never_escapes in Ef.
        -- split; [discriminate|].
           intros (_ & [H|(p & [= <-] & [H|(e & [= <-] & H)])]);
             congruence.
        -- split.
           ++ intros [= <-]. split; [reflexivity|]. right. exists path.
              split; [reflexivity|]. right. exists eng. now split.
           ++ intros (_ & [H|(p & [= <-] & [H|(e & [= <-] & H)])]);
                congruence.
      * split; [discriminate|].
        intros (_ & [H|(p & _ & [H|(e & H & _)])]); discriminate.
      * split.
        -- intros [= <-]. split; [reflexivity|]. right. exists path.
           split; [reflexivity|]. now left.
        -- intros (_ & [H|(p & _ & [H|(e & H & _)])]); congruence.
    + split; [discriminate|].
      intros (_ & [H|(p & H & _)]); discriminate.
    + split.
      * intros [= <-]. split; [reflexivity|]. now left.
      * intros (_ & [H|(p & H & _)]); congruence.
Qed.

End HandlerFacts.

Lemma handler_result_witness :
  fst (handler build_engine no_object_store fetch_url read_cover
               (Event None None None) None)
  = Return (failure missing_location)
  /\ fst (handler build_engine no_object_store fetch_url read_cover
                  (Event (Some "covers") (Some "42.jpg") None) None)
     = Return
         (failure
            "An error occurred (404) when calling the HeadObject operation")
  /\ fst (handler build_engine no_object_store fetch_url read_cover
                  (Event None None (Some "https://example.org/cover.jpg"))
                  None)
     = Return (success [Candidate "X AND Y" 0.8%float]
                       [Candidate "X and Y" 0.9%float]).
Proof.
  split; [|split].
  - pose proof (handler_result unit build_engine no_object_store fetch_url
                  read_cover (Event None None None) None)
      as (_ & _ & H & _).
    apply H. reflexivity.
  - pose proof (handler_result unit build_engine no_object_store fetch_url
                  read_cover (Event (Some "covers") (Some "42.jpg") None)
                  None)
      as (_ & _ & _ & H & _).
    apply H; reflexivity.
  - pose proof (handler_result unit build_engine no_object_store fetch_url
                  read_cover
                  (Event None None (Some "https://example.org/cover.jpg"))
                  None)
      as (_ & _ & _ & _ & _ & _ & _ & _ & H & _).
    apply (H "/tmp/cover.jpg" tt (OcrList [Some mixed_case_batch])
             (Some mixed_case_batch)); reflexivity.
Defined.

(** C9 fails as worded: when the URL transfer is interrupted from the
    keyboard, [KeyboardInterrupt], which is not an [Exception], passes
    [except Exception] and reaches the caller of [handler]; no result
    object is returned. *)
Lemma handler_propagates_counterexample :
  fst (handler build_engine no_object_store interrupted read_cover
               (Event None None (Some "https://example.org/cover.jpg"))
               None)
  = Escape "KeyboardInterrupt"
  /\ ~ exists r,
         fst (handler build_engine no_object_store interrupted read_cover
                      (Event None None
                             (Some "https://example.org/cover.jpg"))
                      None)
         = Return r.
Proof.
  split; [reflexivity|]. intros (r & H). discriminate H.
Qed.

(** * Further properties of the code *)

(** ** The engine handle *)

Section EngineHandle.
Variable engine : Type.
Variable PaddleOCR : option (exc engine).
Variable _download_s3_object : option string -> option string -> exc string.
Variable _download_http : option string -> exc string.
Variable ocr : engine -> string -> exc ocr_output.

(** X1.  [_init_ocr] is a lazy singleton.  A handle that it returns is
    the one stored in [_OCR] afterwards, and every later call returns
    that same handle and leaves [_OCR] as it is, whatever the
    constructor would do; a call that raises, an [Exception] or not,
    found [_OCR] empty and leaves it empty. *)
Theorem init_ocr_singleton (g : option engine) :
  (forall handle,
     fst (_init_ocr PaddleOCR g) = Return handle ->
     snd (_init_ocr PaddleOCR g) = Some handle
     /\ forall constructor : option (exc engine),
          _init_ocr constructor (snd (_init_ocr PaddleOCR g))
          = (Return handle, Some handle))
  /\ (forall msg,
        fst (_init_ocr PaddleOCR g) = Raise msg ->
        g = None /\ snd (_init_ocr PaddleOCR g) = None)
  /\ (forall class,
        fst (_init_ocr PaddleOCR g) = Escape class ->
        g = None /\ snd (_init_ocr PaddleOCR g) = None).
Proof.
  unfold _init_ocr. split; [|split].
  - intros handle. destruct g as [h|]; cbn [fst snd].
    + intros [= ->]. now split.
    + destruct PaddleOCR as [[h|msg|class]|]; cbn [fst snd];
        intros [= ->]. now split.
  - intros msg. destruct g as [h|]; cbn [fst snd]; [discriminate|].
    destruct PaddleOCR as [[h|m|class]|]; cbn [fst snd]; try discriminate;
      now split.
  - intros class. destruct g as [h|]; cbn [fst snd]; [discriminate|].
    destruct PaddleOCR as [[h|m|c]|]; cbn [fst snd]; try discriminate;
      now split.
Qed.

Lemma handler_state ev g :
  snd (handler PaddleOCR _download_s3_object _download_http ocr ev g)
  = if located ev
    then match transfer _download_s3_object _download_http ev with
         | Return _ => snd (_init_ocr PaddleOCR g)
         | Raise _ | Escape _ => g
         end
    else g.
Proof.
  unfold handler, handler_body, located, transfer.
  destruct (present (s3Bucket ev) && present (s3Key ev));
    destruct (present (imageUrl ev)); cbn [negb andb orb]; try reflexivity;
    unfold io_bind, call, io_return;
    match goal with
    | |- context [match ?d with
                  | Return _ => _ | Raise _ => _ | Escape _ => _
                  end] =>
        destruct d as [path|msg|class]; try reflexivity
    end;
    (destruct (_init_ocr PaddleOCR g) as [[eng|msg|class] g'];
     try reflexivity);
    (destruct (ocr eng path) as [res|msg|class]; try reflexivity);
    (destruct (first_page res) as [lines|msg|class]; try reflexivity);
    now destruct (_heuristic_candidates lines).
Qed.

(** X2.  [handler] changes the state of the module in one way only: by
    storing the handle that [_init_ocr] builds.  A run that stops
    before the engine step, on a payload without a location or on a
    transfer that raises, leaves [_OCR] as it was; a run that starts
    with a handle keeps that handle, and its outcome does not depend on
    the constructor. *)
Theorem handler_keeps_handle (ev : event) (g : option engine) :
  let run := handler PaddleOCR _download_s3_object _download_http ocr ev in
  (located ev = false -> snd (run g) = g)
  /\ (forall msg,
        transfer _download_s3_object _download_http ev = Raise msg ->
        snd (run g) = g)
  /\ (forall class,
        transfer _download_s3_object _download_http ev = Escape class ->
        snd (run g) = g)
  /\ (forall handle,
        g = Some handle ->
        snd (run g) = Some handle
        /\ forall constructor : option (exc engine),
             handler constructor _download_s3_object _download_http ocr ev g
             = run g).
Proof.
  intros run. unfold run. split; [|split; [|split]].
  - intros H. now rewrite handler_state, H.
  - intros msg H. rewrite handler_state, H. now destruct (located ev).
  - intros class H. rewrite handler_state, H. now destruct (located ev).
  - intros handle ->. split.
    + rewrite handler_state.
      destruct (located ev); [|reflexivity].
      now destruct (transfer _download_s3_object _download_http ev).
    + intros constructor. unfold handler, handler_body.
      destruct (negb (present (s3Bucket ev) && present (s3Key ev))
                && negb (present (imageUrl ev))); [reflexivity|].
      unfold io_bind, call.
      now destruct (if present (s3Bucket ev) && present (s3Key ev)
                    then _download_s3_object (s3Bucket ev) (s3Key ev)
                    else _download_http (imageUrl ev)).
Qed.

(** X3.  A bucket and a key take precedence over a URL: when both are
    given, the outcome of [handler] is the same with any [imageUrl] or
    none, and the URL transfer has no part in it. *)
Theorem handler_prefers_object_store
    (bucket key url : option string) (g : option engine) :
  present bucket = true ->
  present key = true ->
  forall other_http : option string -> exc string,
    handler PaddleOCR _download_s3_object other_http ocr
            (Event bucket key None) g
    = handler PaddleOCR _download_s3_object _download_http ocr
              (Event bucket key url) g.
Proof.
  intros Hb Hk other_http.
  unfold handler, handler_body. cbn [s3Bucket s3Key imageUrl].
  rewrite Hb, Hk. reflexivity.
Qed.

(** X4.  What [handler] makes of the shapes of a recognition result,
    once the image is fetched and the engine is there: an object that
    is not a list, and a list whose first element is [None], give both
    candidate lists empty and no error; the empty list gives the error
    of [result[0]]. *)
Theorem handler_recognition_shapes
    (ev : event) (g : option engine) (path : string) (eng : engine) :
  located ev = true ->
  transfer _download_s3_object _download_http ev = Return path ->
  fst (_init_ocr PaddleOCR g) = Return eng ->
  let run :=
    fst (handler PaddleOCR _download_s3_object _download_http ocr ev g) in
  (ocr eng path = Return OcrOther -> run = Return (success [] []))
  /\ (forall rest,
        ocr eng path = Return (OcrList (None :: rest)) ->
        run = Return (success [] []))
  /\ (forall rest,
        ocr eng path = Return (OcrList (Some [] :: rest)) ->
        run = Return (success [] []))
  /\ (ocr eng path = Return (OcrList []) ->
      run = Return (failure "list index out of range")).
Proof.
  intros Hl Ht Hh run. unfold run.
  rewrite handler_of_body, handler_body_steps, Hl, Ht, Hh.
  repeat split; intros; rewrite H; reflexivity.
Qed.

End EngineHandle.

Lemma handler_prefers_object_store_witness :
  handler build_engine no_object_store (fun _ => Raise "unused") read_cover
          (Event (Some "covers") (Some "42.jpg") None) None
  = handler build_engine no_object_store fetch_url read_cover
            (Event (Some "covers") (Some "42.jpg")
                   (Some "https://example.org/cover.jpg")) None.
Proof.
  apply (handler_prefers_object_store unit build_engine no_object_store
           fetch_url read_cover (Some "covers") (Some "42.jpg")
           (Some "https://example.org/cover.jpg") None);
    reflexivity.
Defined.

Lemma handler_recognition_shapes_witness :
  fst (handler build_engine no_object_store fetch_url
               (fun _ _ => Return (OcrList []))
               (Event None None (Some "https://example.org/cover.jpg")) None)
  = Return (failure "list index out of range").
Proof.
  apply (handler_recognition_shapes unit build_engine no_object_store
           fetch_url (fun _ _ => Return (OcrList []))
           (Event None None (Some "https://example.org/cover.jpg")) None
           "/tmp/cover.jpg" tt);
    reflexivity.
Defined.

(** ** When [_bbox_area] raises, and the area of a single point *)

Lemma coords_None i bbox :
  coords i bbox = None <-> exists p, In p bbox /\ List.length p <= i.
Proof.
  induction bbox as [|q bbox IH]; simpl.
  - split; [discriminate|intros (p & [] & _)].
  - destruct (nth_error q i) as [c|] eqn:Ec.
    + assert (Hq : ~ List.length q <= i).
      { intros H. apply nth_error_None in H. congruence. }
      destruct (coords i bbox) as [cs|].
      * split; [discriminate|].
        intros (p & [<-|Hp] & Hlen); [contradiction|].
        assert (E : Some cs = None) by (apply IH; eauto). discriminate E.
      * split; [|reflexivity]. intros _.
        destruct (proj1 IH eq_refl) as (p & Hp & Hlen). eauto.
    + split; [|reflexivity]. intros _. exists q.
      split; [now left|now apply nth_error_None].
Qed.

Lemma coords_length i bbox cs :
  coords i bbox = Some cs -> List.length cs = List.length bbox.
Proof.
  revert cs. induction bbox as [|q bbox IH]; simpl; intros cs.
  - now intros [= <-].
  - destruct (nth_error q i); [|discriminate].
    destruct (coords i bbox) as [cs'|]; [|discriminate].
    intros [= <-]. simpl. now rewrite (IH cs').
Qed.

(** X5.  [_bbox_area] raises exactly on a bounding box without points
    and on one with a point of fewer than two coordinates; on every
    other bounding box, of any number of points, it returns an area. *)
Theorem bbox_area_raises_iff (bbox : list point) :
  _bbox_area bbox = None
  <-> bbox = [] \/ exists p, In p bbox /\ List.length p < 2.
Proof.
  unfold _bbox_area. split.
  - destruct (coords 0 bbox) as [xs|] eqn:E0.
    + destruct (coords 1 bbox) as [ys|] eqn:E1.
      * apply coords_length in E0. apply coords_length in E1.
        destruct bbox as [|p bbox]; [now left|].
        destruct xs as [|x xs]; [discriminate|].
        destruct ys as [|y ys]; [discriminate|]. discriminate.
      * intros _. right. apply coords_None in E1.
        destruct E1 as (p & Hp & Hlen). exists p. split; [exact Hp|lia].
    + intros _. right. apply coords_None in E0.
      destruct E0 as (p & Hp & Hlen). exists p. split; [exact Hp|lia].
  - intros [->|(p & Hp & Hlen)]; [reflexivity|].
    assert (E1 : coords 1 bbox = None).
    { apply coords_None. exists p. split; [exact Hp|lia]. }
    rewrite E1. now destruct (coords 0 bbox).
Qed.

Lemma sub_diag_not_positive x : (0 <? x - x)%float = false.
Proof.
  rewrite ltb_spec, sub_spec. change (Prim2SF 0) with (S754_zero false).
  destruct (Prim2SF x) as [[]|[]| |[] m e]; try reflexivity;
    unfold SF64sub, SFsub; rewrite Z.sub_diag; reflexivity.
Qed.

(** X6.  A bounding box of a single point is accepted and has area
    0.0, whatever the coordinates, infinite and NaN included. *)
Theorem single_point_area (x y : float) (more : list float) :
  _bbox_area [x :: y :: more] = Some 0%float.
Proof.
  unfold _bbox_area. cbn [coords nth_error PyFloat.max_seq
                           PyFloat.min_seq fold_left].
  unfold PyFloat.max2, PyFloat.gt. now rewrite !sub_diag_not_positive.
Qed.

(** ** Which entries are ranked *)

Lemma line_of_In item ln :
  In ln (line_of item) <->
  exists text area,
    item_text item = TStr text /\ text <> ""
    /\ _bbox_area (item_bbox item) = Some area
    /\ ln = (PyStr.strip text, item_conf item, area).
Proof.
  unfold line_of. split.
  - destruct (_bbox_area (item_bbox item)) as [area|]; [|intros []].
    destruct (item_text item) as [text|]; [|intros []].
    destruct text as [|c text]; [intros []|].
    intros [<-|[]]. exists (String c text), area. now repeat split.
  - intros (text & area & -> & Ht & -> & ->).
    destruct text; [contradiction|]. now left.
Qed.

Lemma line_of_length item : List.length (line_of item) <= 1.
Proof.
  unfold line_of.
  destruct (_bbox_area (item_bbox item)); [|simpl; lia].
  destruct (item_text item) as [text|]; [|simpl; lia].
  destruct (PyStr.truthy text); simpl; lia.
Qed.

(** X7.  The first loop treats every entry on its own: the lines of a
    concatenation are the lines of its parts, in order, there are never
    more lines than entries, and a line [(text.strip(), conf, area)] is
    collected exactly for the entries whose text is a non-empty string
    and whose area can be computed. *)
Theorem collect_lines_entries (batch more : list ocr_item) :
  collect_lines (batch ++ more) = collect_lines batch ++ collect_lines more
  /\ List.length (collect_lines batch) <= List.length batch
  /\ forall ln,
       In ln (collect_lines batch) <->
       exists item text area,
         In item batch
         /\ item_text item = TStr text /\ text <> ""
         /\ _bbox_area (item_bbox item) = Some area
         /\ ln = (PyStr.strip text, item_conf item, area).
Proof.
  rewrite !collect_lines_flat_map. split; [apply flat_map_app|]. split.
  - induction batch as [|item batch IH]; simpl; [lia|].
    rewrite length_app. pose proof (line_of_length item). lia.
  - intros ln. rewrite in_flat_map. split.
    + intros (item & Hin & Hln). apply line_of_In in Hln.
      destruct Hln as (text & area & H). exists item, text, area. tauto.
    + intros (item & text & area & Hin & H). exists item.
      split; [exact Hin|]. apply line_of_In. exists text, area. exact H.
Qed.

(** X8.  When no entry can be used, because its area cannot be computed
    or its text is not a string or is the empty string, and so also for
    an empty result and for [None], both candidate lists are empty. *)
Theorem no_usable_entry_no_candidate (ocr_result : option (list ocr_item)) :
  (forall item,
     In item (or_empty ocr_result) ->
     _bbox_area (item_bbox item) = None
     \/ item_text item = TOther
     \/ item_text item = TStr "") ->
  _heuristic_candidates ocr_result = ([], []).
Proof.
  intros H. rewrite heuristic_candidates_eq, collect_lines_flat_map.
  assert (E : flat_map line_of (or_empty ocr_result) = []).
  { induction (or_empty ocr_result) as [|item l IH]; [reflexivity|].
    simpl. rewrite IH by (intros i Hi; apply H; now right).
    rewrite app_nil_r. unfold line_of.
    destruct (H item (or_introl eq_refl)) as [-> |[-> | ->]];
      [reflexivity| |]; now destruct (_bbox_area (item_bbox item)). }
  rewrite E. reflexivity.
Qed.

Lemma no_usable_entry_no_candidate_witness :
  _heuristic_candidates
    (Some [ Item [] (TStr "Hamlet") 0.9%float;
            Item (box 10 10) TOther 0.8%float;
            Item (box 10 10) (TStr "") 0.7%float ])
  = ([], []).
Proof.
  apply no_usable_entry_no_candidate.
  intros item [<-|[<-|[<-|[]]]];
    [left|right; left|right; right]; reflexivity.
Defined.

(** ** [_norm] *)

Lemma rev_append_no_space s acc :
  no_space (PyStr.rev_append s acc) = no_space s && no_space acc.
Proof.
  revert acc. induction s as [|c s IH]; intros acc; simpl; [reflexivity|].
  rewrite IH. simpl. destruct (PyStr.isspace c); simpl;
    [now rewrite andb_false_r|reflexivity].
Qed.

Lemma rev_append_length s acc :
  String.length (PyStr.rev_append s acc) = String.length s + String.length acc.
Proof.
  revert acc. induction s as [|c s IH]; intros acc; simpl; [reflexivity|].
  rewrite IH. simpl. lia.
Qed.

Lemma rev_length s : String.length (PyStr.rev s) = String.length s.
Proof. unfold PyStr.rev. rewrite rev_append_length. simpl. lia. Qed.

Lemma rev_no_space s : no_space (PyStr.rev s) = no_space s.
Proof.
  unfold PyStr.rev. rewrite rev_append_no_space. simpl. apply andb_true_r.
Qed.

Lemma rev_is_word c word :
  no_space (String c word) = true -> is_word (PyStr.rev (String c word)).
Proof.
  intros H. split; [|now rewrite rev_no_space].
  intros E. apply (f_equal String.length) in E.
  rewrite rev_length in E. discriminate E.
Qed.

Lemma split_from_words word s :
  no_space word = true -> Forall is_word (PyStr.split_from word s).
Proof.
  revert word. induction s as [|c s IH]; intros word Hw; simpl.
  - destruct word as [|d word]; constructor; [|constructor].
    now apply rev_is_word.
  - destruct (PyStr.isspace c) eqn:Ec.
    + destruct word as [|d word]; [now apply IH|].
      constructor; [now apply rev_is_word|now apply IH].
    + apply IH. simpl. now rewrite Ec.
Qed.

Lemma spaced_word b w rest :
  is_word w -> spaced b (w ++ rest) = spaced false rest.
Proof.
  intros [Hne Hns]. revert b Hne.
  induction w as [|c w IH]; intros b Hne; [contradiction|].
  simpl in *. destruct (PyStr.isspace c); [discriminate|]. simpl in Hns.
  destruct w as [|d w]; [reflexivity|].
  apply IH; [exact Hns|discriminate].
Qed.

Lemma spaced_join b ws :
  Forall is_word ws -> spaced b (PyStr.join " " ws) = true.
Proof.
  unfold PyStr.join. intros H. revert b.
  induction H as [|w ws Hw Hws IH]; intros b; [reflexivity|].
  simpl. destruct ws as [|w' ws'].
  - assert (E : (w ++ "")%string = w).
    { clear. induction w as [|c w IH]; simpl; congruence. }
    rewrite <- E, spaced_word by exact Hw. reflexivity.
  - rewrite spaced_word by exact Hw.
    change (spaced true (String.concat " " (w' :: ws')) = true).
    apply IH.
Qed.

Lemma spaced_prefix n b s :
  spaced b s = true -> spaced b (String.substring 0 n s) = true.
Proof.
  revert b s. induction n as [|n IH]; intros b s H.
  - now destruct s.
  - destruct s as [|c s]; [reflexivity|]. simpl in *.
    destruct (PyStr.isspace c).
    + apply andb_true_iff in H. destruct H as [H1 H2].
      rewrite H1. simpl. now apply IH.
    + now apply IH.
Qed.

Lemma append_length (s t : string) :
  String.length (s ++ t) = String.length s + String.length t.
Proof. induction s as [|c s IH]; simpl; congruence. Qed.

Lemma join_length_split word s :
  String.length (PyStr.join " " (PyStr.split_from word s))
  <= String.length word + String.length s.
Proof.
  unfold PyStr.join. revert word.
  induction s as [|c s IH]; intros word.
  - simpl. destruct word as [|d word]; [simpl; lia|].
    cbn [String.concat]. rewrite rev_length. lia.
  - cbn [PyStr.split_from]. destruct (PyStr.isspace c).
    + destruct word as [|d word].
      * specialize (IH EmptyString). simpl in *. lia.
      * specialize (IH EmptyString).
        cbn [String.concat].
        destruct (PyStr.split_from EmptyString s) as [|w ws].
        -- rewrite rev_length. simpl. lia.
        -- rewrite !append_length, rev_length.
           simpl in *. lia.
    + specialize (IH (String c word)). simpl in *. lia.
Qed.

Lemma replace_length a b s :
  String.length (PyStr.replace a b s) = String.length s.
Proof.
  unfold PyStr.replace. induction s as [|c s IH]; simpl; congruence.
Qed.

(** X9.  A normalized text is made of runs of non-whitespace characters
    with exactly one space between two runs: it holds no newline, tab
    or other whitespace character than the space, no two spaces in a
    row and no space in front; and it is never longer than the text it
    comes from. *)
Theorem norm_single_spaced (s : string) :
  single_spaced (_norm s) = true
  /\ PyStr.len (_norm s) <= PyStr.len s.
Proof.
  unfold _norm, PyStr.slice_to, PyStr.split, single_spaced. split.
  - apply spaced_prefix, spaced_join, split_from_words. reflexivity.
  - unfold PyStr.len.
    pose proof (join_length_split EmptyString
                  (PyStr.replace "010"%char " "%char s)) as H.
    rewrite replace_length in H. simpl in H.
    assert (Hs : forall n t,
               String.length (String.substring 0 n t) <= String.length t).
    { clear. induction n as [|n IH]; intros [|c t]; simpl; try lia.
      specialize (IH t). lia. }
    specialize (Hs 200 (PyStr.join " "
                          (PyStr.split_from EmptyString
                             (PyStr.replace "010"%char " "%char s)))).
    lia.
Qed.

Lemma split_from_nil word s :
  PyStr.split_from word s = []
  <-> word = EmptyString /\ all_space s = true.
Proof.
  revert word. induction s as [|c s IH]; intros word; simpl.
  - destruct word; split; try easy; now intros [? _].
  - destruct (PyStr.isspace c); simpl.
    + destruct word as [|d word]; [apply IH|].
      split; [discriminate|now intros [? _]].
    + rewrite IH. split; [now intros [? _]|now intros [_ ?]].
Qed.

Lemma replace_newline_all_space s :
  all_space (PyStr.replace "010"%char " "%char s) = all_space s.
Proof.
  unfold PyStr.replace. induction s as [|c s IH]; [reflexivity|].
  simpl. rewrite IH. destruct (Ascii.eqb_spec c "010"%char) as [->|_];
    reflexivity.
Qed.

Lemma join_words_empty ws :
  Forall is_word ws -> PyStr.join " " ws = EmptyString -> ws = [].
Proof.
  unfold PyStr.join. intros H E. destruct H as [|w ws [Hne _] _];
    [reflexivity|].
  destruct w as [|c w]; [contradiction|].
  simpl in E. destruct ws; discriminate E.
Qed.

(** X10.  A text normalizes to the empty string exactly when it is
    empty or made of whitespace only. *)
Theorem norm_empty_iff (s : string) :
  _norm s = EmptyString <-> all_space s = true.
Proof.
  unfold _norm, PyStr.slice_to, PyStr.split.
  rewrite <- (replace_newline_all_space s).
  set (r := PyStr.replace "010"%char " "%char s).
  split.
  - intros E.
    assert (Ej : PyStr.join " " (PyStr.split_from EmptyString r)
                 = EmptyString).
    { destruct (PyStr.join " " (PyStr.split_from EmptyString r));
        [reflexivity|discriminate E]. }
    apply join_words_empty in Ej;
      [|now apply split_from_words].
    now apply split_from_nil in Ej.
  - intros H.
    assert (E : PyStr.split_from EmptyString r = [])
      by (apply split_from_nil; now split).
    rewrite E. reflexivity.
Qed.

(** ** [_dedup] once more *)

Lemma first_occurrences_fixed items :
  NoDup (map folded items) ->
  (forall c, In c items -> PyStr.truthy (folded c) = true) ->
  first_occurrences items = items.
Proof.
  induction items as [|c items IH]; intros Hnd Ht; [reflexivity|].
  simpl. rewrite (Ht c (or_introl eq_refl)).
  inversion Hnd as [|? ? Hn Hnd']; subst.
  rewrite IH by (auto; intros d Hd; apply Ht; now right).
  f_equal. rewrite (filter_ext_in _ (fun _ => true)); [apply filter_all|].
  intros d Hd. destruct (String.eqb_spec (folded d) (folded c)) as [E|_];
    [|reflexivity].
  exfalso. apply Hn. rewrite <- E. now apply in_map.
Qed.

Lemma dedup_NoDup items : NoDup (map folded (_dedup items)).
Proof.
  rewrite dedup_first_occurrences, <- firstn_map.
  apply NoDup_firstn, first_occurrences_NoDup.
Qed.

(** X12.  [_dedup] is idempotent, no entry of its result has an empty
    value, and a list of at most five entries whose case-folded values
    are non-empty and distinct is returned as it is. *)
Theorem dedup_idempotent (items : list candidate) :
  _dedup (_dedup items) = _dedup items
  /\ (forall c, In c (_dedup items) -> value c <> EmptyString)
  /\ (NoDup (map folded items) ->
      (forall c, In c items -> value c <> EmptyString) ->
      List.length items <= 5 ->
      _dedup items = items).
Proof.
  assert (Hfix : forall l,
             NoDup (map folded l) ->
             (forall c, In c l -> PyStr.truthy (folded c) = true) ->
             _dedup l = firstn 5 l).
  { intros l Hn Ht. rewrite dedup_first_occurrences.
    now rewrite first_occurrences_fixed. }
  assert (Htr : forall c, In c (_dedup items) ->
                          PyStr.truthy (folded c) = true).
  { intros c Hc. rewrite dedup_first_occurrences in Hc.
    eapply first_occurrences_truthy, In_firstn, Hc. }
  split; [|split].
  - rewrite (Hfix (_dedup items)); [|apply dedup_NoDup|exact Htr].
    rewrite dedup_first_occurrences, firstn_firstn. reflexivity.
  - intros c Hc E. specialize (Htr c Hc). unfold folded in Htr.
    rewrite E in Htr. discriminate Htr.
  - intros Hn Hv Hlen. rewrite Hfix; [now apply firstn_all2|exact Hn|].
    intros c Hc. specialize (Hv c Hc). unfold folded.
    destruct (value c); [contradiction|reflexivity].
Qed.

(** ** Lines of whitespace *)

Lemma lstrip_all_space s : all_space s = true -> PyStr.lstrip s = EmptyString.
Proof.
  induction s as [|c s IH]; simpl; [reflexivity|].
  destruct (PyStr.isspace c); [exact IH|discriminate].
Qed.

Lemma strip_all_space s : all_space s = true -> PyStr.strip s = EmptyString.
Proof.
  intros H. unfold PyStr.strip. now rewrite (lstrip_all_space s H).
Qed.

(** X11.  An entry whose text is not empty but made of whitespace only
    passes the test of the first loop: it is collected as a line with
    the empty text, is ranked by its salience like any other line, and
    the second loop skips it. *)
Theorem whitespace_line_is_ranked
    (before after : list ocr_item) (item : ocr_item)
    (text : string) (area : float) :
  item_text item = TStr text ->
  text <> EmptyString ->
  all_space text = true ->
  _bbox_area (item_bbox item) = Some area ->
  collect_lines (before ++ item :: after)
  = collect_lines before
    ++ (EmptyString, item_conf item, area) :: collect_lines after
  /\ In (EmptyString, item_conf item, area)
        (ranked (collect_lines (before ++ item :: after)))
  /\ forall st, classify_step st (EmptyString, item_conf item, area) = st.
Proof.
  intros Ht Hne Hs Ha.
  assert (E : collect_lines (before ++ item :: after)
              = collect_lines before
                ++ (EmptyString, item_conf item, area)
                :: collect_lines after).
  { rewrite !collect_lines_flat_map, flat_map_app. simpl.
    unfold line_of at 2. rewrite Ha, Ht, (strip_all_space text Hs).
    destruct text; [contradiction|reflexivity]. }
  split; [exact E|]. split.
  - apply sorted_reverse_In. rewrite E. apply in_elt.
  - intros [tc ac]. reflexivity.
Qed.

Lemma whitespace_line_is_ranked_witness :
  collect_lines [Item (box 10 10) (TStr "   ") 0.9%float]
  = [(EmptyString, 0.9%float, 100%float)].
Proof.
  apply (whitespace_line_is_ranked [] []
           (Item (box 10 10) (TStr "   ") 0.9%float) "   " 100%float);
    try reflexivity; discriminate.
Defined.

(** ** What the two output lists hold *)

(** X13.  The value of an author candidate has between 3 and 79
    characters and holds a comma, " and " or " & "; the value of a
    title candidate holds none of the three or has 80 characters or
    more. *)
Theorem output_categories (ocr_result : option (list ocr_item)) :
  (forall c,
     In c (snd (_heuristic_candidates ocr_result)) ->
     3 <= PyStr.len (value c) < 80
     /\ (PyStr.contains "," (value c) = true
         \/ PyStr.contains " and " (value c) = true
         \/ PyStr.contains " & " (value c) = true))
  /\ (forall c,
        In c (fst (_heuristic_candidates ocr_result)) ->
        80 <= PyStr.len (value c)
        \/ (PyStr.contains "," (value c) = false
            /\ PyStr.contains " and " (value c) = false
            /\ PyStr.contains " & " (value c) = false)).
Proof.
  rewrite heuristic_candidates_eq, classify_filter. cbn [fst snd].
  split; intros c Hc; apply dedup_incl in Hc; apply in_map_iff in Hc;
    destruct Hc as (ln & <- & Hln); apply filter_In in Hln;
    destruct Hln as (Hq & Hr); apply filter_In in Hq;
    destruct Hq as (_ & Hq); cbn [candidate_of value];
    unfold qualifies in Hq; apply Nat.leb_le in Hq;
    unfold author_rule in Hr.
  - apply andb_true_iff in Hr. destruct Hr as (Hm & Hl).
    apply Nat.ltb_lt in Hl. rewrite !orb_true_iff in Hm.
    split; [lia|tauto].
  - apply negb_true_iff, andb_false_iff in Hr.
    destruct Hr as [Hm|Hl].
    + right. rewrite !orb_false_iff in Hm. tauto.
    + left. apply Nat.ltb_ge in Hl. exact Hl.
Qed.

(** ** The order of the output *)

Lemma StronglySorted_filter (A : Type) (R : A -> A -> Prop) p l :
  StronglySorted R l -> StronglySorted R (filter p l).
Proof.
  induction 1 as [|a l Hs IH Ha]; simpl; [constructor|].
  destruct (p a); [|exact IH]. constructor; [exact IH|].
  rewrite Forall_forall in *. intros x Hx. apply Ha.
  apply filter_In in Hx. tauto.
Qed.

Lemma StronglySorted_firstn (A : Type) (R : A -> A -> Prop) n l :
  StronglySorted R l -> StronglySorted R (firstn n l).
Proof.
  intros H. revert n. induction H as [|a l Hs IH Ha]; intros [|n]; simpl;
    try constructor; [apply IH|].
  rewrite Forall_forall in *. intros x Hx. apply Ha.
  eapply In_firstn, Hx.
Qed.

Lemma filter_map_comm (A B : Type) (f : A -> B) p l :
  filter p (map f l) = map f (filter (fun a => p (f a)) l).
Proof.
  induction l as [|a l IH]; [reflexivity|]. simpl.
  destruct (p (f a)); simpl; now rewrite IH.
Qed.

Lemma first_occurrences_map (R : line -> line -> Prop) l :
  StronglySorted R l ->
  exists l',
    first_occurrences (map candidate_of l) = map candidate_of l'
    /\ StronglySorted R l' /\ incl l' l.
Proof.
  induction 1 as [|a l Hs (l' & E & Hs' & Hi) Ha].
  - exists []. repeat split; [constructor|easy].
  - simpl. destruct (PyStr.truthy (folded (candidate_of a))).
    + rewrite E, filter_map_comm.
      eexists (a :: filter _ l'). split; [reflexivity|]. split.
      * constructor; [now apply StronglySorted_filter|].
        rewrite Forall_forall in *. intros x Hx. apply Ha, Hi.
        apply filter_In in Hx. tauto.
      * intros x [<-|Hx]; [now left|]. right. apply Hi.
        apply filter_In in Hx. tauto.
    + exists l'. split; [exact E|]. split; [exact Hs'|].
      intros x Hx. right. now apply Hi.
Qed.

Lemma dedup_map_sorted (R : line -> line -> Prop) l :
  StronglySorted R l ->
  exists l',
    _dedup (map candidate_of l) = map candidate_of l'
    /\ StronglySorted R l' /\ incl l' l.
Proof.
  intros H. destruct (first_occurrences_map R l H) as (l' & E & Hs & Hi).
  exists (firstn 5 l'). rewrite dedup_first_occurrences, E, firstn_map.
  split; [reflexivity|]. split; [now apply StronglySorted_firstn|].
  intros x Hx. apply Hi. eapply In_firstn, Hx.
Qed.

(** X14.  Each output list is in ranking order: when no salience is
    NaN, its candidates are built, one by one and in order, from lines
    of the first twenty of the ranking of which none stands before a
    line of greater salience. *)
Theorem output_in_rank_order (ocr_result : option (list ocr_item)) :
  let lines := collect_lines (or_empty ocr_result) in
  no_nan (map salience lines) ->
  exists title_lines author_lines,
    fst (_heuristic_candidates ocr_result) = map candidate_of title_lines
    /\ snd (_heuristic_candidates ocr_result) = map candidate_of author_lines
    /\ StronglySorted (key_ge salience) title_lines
    /\ StronglySorted (key_ge salience) author_lines
    /\ incl title_lines (firstn 20 (ranked lines))
    /\ incl author_lines (firstn 20 (ranked lines)).
Proof.
  intros lines Hn.
  pose proof (StronglySorted_firstn _ _ 20 _ (ranked_sorted lines Hn)) as Hs.
  rewrite heuristic_candidates_eq. fold lines.
  rewrite classify_filter. cbn [fst snd].
  set (q := filter qualifies (firstn 20 (ranked lines))).
  assert (Hq : StronglySorted (key_ge salience) q)
    by now apply StronglySorted_filter.
  assert (Hqi : incl q (firstn 20 (ranked lines))).
  { intros x Hx. apply filter_In in Hx. tauto. }
  destruct (dedup_map_sorted _
              (filter (fun ln => negb (author_rule (_norm (line_text ln)))) q)
              (StronglySorted_filter _ _ _ _ Hq)) as (tl & Et & Hst & Hit).
  destruct (dedup_map_sorted _
              (filter (fun ln => author_rule (_norm (line_text ln))) q)
              (StronglySorted_filter _ _ _ _ Hq)) as (al & Ea & Hsa & Hia).
  exists tl, al. repeat split; try assumption.
  - intros x Hx. apply Hqi. apply Hit in Hx. apply filter_In in Hx. tauto.
  - intros x Hx. apply Hqi. apply Hia in Hx. apply filter_In in Hx. tauto.
Qed.

Lemma output_in_rank_order_witness :
  exists title_lines author_lines,
    fst (_heuristic_candidates (Some seven_titles))
    = map candidate_of title_lines
    /\ snd (_heuristic_candidates (Some seven_titles))
       = map candidate_of author_lines
    /\ StronglySorted (key_ge salience) title_lines
    /\ StronglySorted (key_ge salience) author_lines
    /\ incl title_lines (firstn 20 (ranked (collect_lines seven_titles)))
    /\ incl author_lines (firstn 20 (ranked (collect_lines seven_titles))).
Proof.
  exact (output_in_rank_order (Some seven_titles) seven_titles_no_nan).
Defined.

(** X15.  The cut to twenty lines comes before the test of length:
    when none of the first twenty ranked lines has a normalized text of
    three characters or more, both candidate lists are empty, whatever
    the lines ranked after them. *)
Theorem short_lines_fill_the_cut (ocr_result : option (list ocr_item)) :
  (forall ln,
     In ln (firstn 20 (ranked (collect_lines (or_empty ocr_result)))) ->
     PyStr.len (_norm (line_text ln)) < 3) ->
  _heuristic_candidates ocr_result = ([], []).
Proof.
  intros H. rewrite heuristic_candidates_eq, classify_filter. cbn [fst snd].
  assert (E : filter qualifies
                (firstn 20 (ranked (collect_lines (or_empty ocr_result))))
              = []).
  { induction (firstn 20 (ranked (collect_lines (or_empty ocr_result))))
      as [|ln l IH]; [reflexivity|].
    simpl. unfold qualifies at 1.
    destruct (Nat.leb_spec 3 (PyStr.len (_norm (line_text ln)))) as [Hle|_].
    - specialize (H ln (or_introl eq_refl)). lia.
    - apply IH. intros x Hx. apply H. now right. }
  rewrite E. reflexivity.
Qed.

Lemma short_lines_fill_the_cut_witness :
  In ("Hamlet", 0.5%float, 100%float)
     (ranked (collect_lines fragments_then_title))
  /\ _heuristic_candidates (Some fragments_then_title) = ([], []).
Proof.
  split; [vm_compute; tauto|].
  apply (short_lines_fill_the_cut (Some fragments_then_title)).
  intros ln Hln. vm_compute in Hln.
  repeat (destruct Hln as [<-|Hln]; [vm_compute; lia|]). contradiction.
Defined.

(** ** Instances *)

Lemma init_ocr_singleton_witness :
  snd (_init_ocr build_engine None) = Some tt
  /\ _init_ocr None (snd (_init_ocr build_engine None)) = (Return tt, Some tt).
Proof.
  destruct (init_ocr_singleton unit build_engine None) as [H _].
  destruct (H tt eq_refl) as [Hs Hc].
  split; [exact Hs|exact (Hc None)].
Defined.

Lemma handler_keeps_handle_witness :
  snd (handler None no_object_store fetch_url read_cover
               (Event None None (Some "https://example.org/cover.jpg"))
               (Some tt))
  = Some tt.
Proof.
  destruct (handler_keeps_handle unit None no_object_store fetch_url
              read_cover
              (Event None None (Some "https://example.org/cover.jpg"))
              (Some tt)) as (_ & _ & _ & H).
  exact (proj1 (H tt eq_refl)).
Defined.

Lemma dedup_idempotent_witness :
  _dedup [Candidate "X AND Y" 0.8%float; Candidate "Emma" 0.9%float]
  = [Candidate "X AND Y" 0.8%float; Candidate "Emma" 0.9%float].
Proof.
  destruct (dedup_idempotent
              [Candidate "X AND Y" 0.8%float; Candidate "Emma" 0.9%float])
    as (_ & _ & H).
  apply H.
  - vm_compute. repeat constructor; intros Hin; no_member Hin.
  - intros c [<-|[<-|[]]]; discriminate.
  - simpl. lia.
Defined.
